(** * Research Assistant agent: a shallow embedding of the workflow and its API

    The development follows [plans/full_code.py] (tools, nodes, graph,
    request models, FastAPI endpoints) and [app/models/schemas.py]
    (the pydantic schemas of the application package).

    Everything the program delegates to other packages -- the chat model,
    the DuckDuckGo search, the web page loader and splitter, the iteration
    order of a Python [set] -- is an operation of the class [External];
    the program's own functions are defined over an arbitrary instance. *)

From stdpp Require Import base option list strings pretty gmap.
From Stdlib Require Import ZArith Lia.

Open Scope string_scope.
Open Scope Z_scope.
Open Scope list_scope.

(** ** Python values shared by all parts *)

(** [chr(10)], the line feed of ["\n"]. *)
Definition nl : string := String (Ascii.ascii_of_nat 10) "".

(** [sep.join(xs)]. *)
Definition join (sep : string) (xs : list string) : string := String.concat sep xs.

(** An instance of Python's [Exception]; [str e] is [str(e)]. The handlers
    of the program are all [except Exception as e] and only use [str(e)]. *)
Inductive exn := Exception (msg : string).

Definition str (e : exn) : string := let 'Exception m := e in m.

(** A Python computation either returns or raises. *)
Inductive result (A : Type) :=
  | Return (a : A)
  | Raise (e : exn).
Arguments Return {A} a.
Arguments Raise {A} e.

(** ** Messages of the conversation *)

Record ToolCall := {
  tc_name : string;
  tc_args : string;
  tc_id : string
}.

(** The reply of the chat model: its text and the tool calls it requests. *)
Record AIMessage := {
  content : string;
  tool_calls : list ToolCall
}.

Inductive message :=
  | System (text : string)
  | Human (text : string)
  | AI (m : AIMessage)
  | ToolMessage (text : string) (tool_call_id : string).

Definition message_content (m : message) : string :=
  match m with
  | System t | Human t | ToolMessage t _ => t
  | AI a => content a
  end.

(** ** The external collaborators

    [world] is the state of everything outside the process (the model
    provider, the network); each external call reads and changes it, so two
    calls with the same argument may answer differently. [set_list xs] is
    [list(set(xs))]: Python fixes the elements of the result, not their
    order. [graph_recursion_error N] is the exception of the graph library
    for a run that has not reached its end within the [N] steps it may
    take, and [tool_error_content e] the text that its tools node puts
    into the tool message when a tool raises [e]. *)
Class External := {
  world : Type;
  LLM : Type;
  graph_recursion_error : nat → exn;
  tool_error_content : exn → string;
  ChatGoogleGenerativeAI : string → option string → result LLM;
  bind_tools : LLM → list string → LLM;
  llm_invoke : LLM → list message → world → result AIMessage * world;
  search_run : string → world → result string * world;
  loader_load : string → world → result (list string) * world;
  split_documents : Z → Z → list string → result (list string);
  set_list : list string → list string;
  set_list_NoDup : ∀ xs, NoDup (set_list xs);
  set_list_elem : ∀ xs x, x ∈ set_list xs ↔ x ∈ xs
}.

(** ** A state and exception monad over the external world *)

Definition M `{External} (A : Type) : Type := world → result A * world.

Definition ret `{External} {A} (a : A) : M A := λ w, (Return a, w).

Definition raise `{External} {A} (e : exn) : M A := λ w, (Raise e, w).

Definition bind `{External} {A B} (m : M A) (k : A → M B) : M B :=
  λ w, match m w with
       | (Return a, w') => k a w'
       | (Raise e, w') => (Raise e, w')
       end.

(** [try: m  except Exception as e: h e]. *)
Definition try_except `{External} {A} (m : M A) (h : exn → M A) : M A :=
  λ w, match m w with
       | (Return a, w') => (Return a, w')
       | (Raise e, w') => h e w'
       end.

(** A computation that does not touch the world. *)
Definition lift `{External} {A} (r : result A) : M A := λ w, (r, w).

#[global] Instance M_ret `{External} : MRet M := @ret _.
#[global] Instance M_bind `{External} : MBind M := λ A B k m, bind m k.

(** ** FILE 1: agent/tools.py *)

Section Tools.
Context `{External}.

Definition web_search (query : string) : M string :=
  try_except (search_run query)
             (λ e, ret ("Search error: " +:+ str e)).

Definition fetch_webpage (url : string) : M string :=
  try_except
    (docs ← loader_load url ;
     chunks ← lift (split_documents 1000 100 docs) ;
     ret (join (nl +:+ nl) (take 3 chunks)))
    (λ e, ret ("Fetch error: " +:+ str e)).

Definition summarize_findings (findings : list string) : string :=
  let unique_findings := set_list findings in
  join (nl +:+ "---" +:+ nl) unique_findings.

(** A LangChain [Tool] hands its function the single string input of the
    call; [summarize_findings] then iterates over a [str], that is over
    its one-character substrings. *)
Definition chars (s : string) : list string :=
  (λ c, String c "") <$> String.list_ascii_of_string s.

Record Tool := {
  name : string;
  func : string → M string
}.

Definition get_tools : list Tool :=
  [ {| name := "web_search"; func := web_search |};
    {| name := "fetch_webpage"; func := fetch_webpage |};
    {| name := "summarize_findings";
       func := λ s, ret (summarize_findings (chars s)) |} ].
End Tools.

(** ** FILE 2: agent/nodes.py *)

(** [max_iterations] is [None] when the request carried an explicit null
    (see [ResearchRequest] below). The keys of the dict are all set by
    [research], so the defaults of the [state.get] calls are never used. *)
Record ResearchState := {
  messages : list message;
  research_query : string;
  findings : list string;
  iteration : Z;
  max_iterations : option Z
}.

(** The dict a node returns: the keys it sets. No key of [ResearchState]
    declares a reducer, so the graph overwrites each returned key. *)
Record Update := {
  upd_messages : option (list message);
  upd_findings : option (list string);
  upd_iteration : option Z
}.

Definition apply_update (u : Update) (st : ResearchState) : ResearchState :=
  {| messages := default (messages st) (upd_messages u);
     research_query := research_query st;
     findings := default (findings st) (upd_findings u);
     iteration := default (iteration st) (upd_iteration u);
     max_iterations := max_iterations st |}.

Definition lines (xs : list string) : string := join nl xs.

Definition planner_prompt : string :=
  lines [ "You are a research planning expert.";
          "        Break down the research query into specific sub-queries.";
          "        Create a research plan with 2-3 focused search queries." ].

Definition researcher_prompt : string :=
  lines [ "You are a thorough researcher.";
          "        Use the available tools to search for information.";
          "        Be specific and comprehensive in your searches." ].

Definition synthesizer_prompt : string :=
  lines [ "You are a research synthesizer.";
          "        Create a comprehensive, well-structured report from the research findings.";
          "        Include:";
          "        1. Executive Summary";
          "        2. Key Findings (with sources)";
          "        3. Detailed Analysis";
          "        4. Conclusion";
          "        ";
          "        Format in markdown." ].

Definition synthesis_prompt (findings : list string) : string :=
  lines [ "";
          "        Based on the research conducted, create a final report.";
          "        ";
          "        Findings gathered:";
          "        " +:+ match findings with
                         | [] => "Research in progress"
                         | _ => join nl findings
                         end;
          "        ";
          "        Create a comprehensive report now.";
          "        " ].

Section Nodes.
Context `{External}.

(** [self.llm] of [ResearchNodes]: the model with the tools bound. *)
Variable llm : LLM.

Definition planner (state : ResearchState) : M Update :=
  let system_msg := System planner_prompt in
  response ← llm_invoke llm ([system_msg] ++ messages state) ;
  ret {| upd_messages := Some [AI response];
         upd_findings := None;
         upd_iteration := Some (iteration state + 1) |}.

Definition researcher (state : ResearchState) : M Update :=
  let system_msg := System researcher_prompt in
  response ← llm_invoke llm ([system_msg] ++ messages state) ;
  ret {| upd_messages := Some [AI response];
         upd_findings := None;
         upd_iteration := None |}.

Definition synthesizer (state : ResearchState) : M Update :=
  let system_msg := System synthesizer_prompt in
  response ← llm_invoke llm
               [system_msg; Human (synthesis_prompt (findings state))] ;
  ret {| upd_messages := Some [AI response];
         upd_findings := Some (findings state ++ [content response]);
         upd_iteration := None |}.
End Nodes.

(** ** The prebuilt pieces of the graph library, as the workflow uses them *)

Section Prebuilt.
Context `{External}.

(** [tools_condition]: route on the tool calls of the last message. *)
Definition tools_condition (state : ResearchState) : result string :=
  match last (messages state) with
  | None => Raise (Exception "No messages found in input state to tool_edge")
  | Some (AI m) =>
      match tool_calls m with
      | [] => Return "__end__"
      | _ :: _ => Return "tools"
      end
  | Some _ => Return "__end__"
  end.

Definition find_tool (tools : list Tool) (n : string) : option Tool :=
  List.find (λ t, String.eqb (name t) n) tools.

(** One tool call of [ToolNode]: the tool's answer becomes a tool message;
    an unknown tool or an exception of the tool is answered by an error
    text instead of being raised. *)
Definition run_tool_call (tools : list Tool) (c : ToolCall) : M message :=
  match find_tool tools (tc_name c) with
  | None =>
      ret (ToolMessage ("Error: " +:+ tc_name c +:+ " is not a valid tool, try one of ["
                        +:+ join ", " (name <$> tools) +:+ "].")
                       (tc_id c))
  | Some t =>
      text ← try_except (func t (tc_args c)) (λ e, ret (tool_error_content e)) ;
      ret (ToolMessage text (tc_id c))
  end.

Fixpoint run_tool_calls (tools : list Tool) (cs : list ToolCall) : M (list message) :=
  match cs with
  | [] => ret []
  | c :: cs' =>
      m ← run_tool_call tools c ;
      ms ← run_tool_calls tools cs' ;
      ret (m :: ms)
  end.

(** [ToolNode(tools)]: run the tool calls of the last message. *)
Definition ToolNode (tools : list Tool) (state : ResearchState) : M Update :=
  match last (messages state) with
  | Some (AI m) =>
      outputs ← run_tool_calls tools (tool_calls m) ;
      ret {| upd_messages := Some outputs;
             upd_findings := None;
             upd_iteration := None |}
  | _ => raise (Exception "Last message is not an AIMessage")
  end.
End Prebuilt.

(** ** FILE 3: agent/graph.py *)

(** The nodes of the compiled graph: the four added by [_build_graph]
    and the two ends ["__start__"] and [END]. *)
Inductive node := START | PLANNER | RESEARCHER | TOOLS | SYNTHESIZER | END.

#[global] Instance node_eq_dec : EqDecision node.
Proof. solve_decision. Defined.

(** [os.getenv(key)] and [os.getenv(key, default)] on the process
    environment. *)
Definition getenv (environ : gmap string string) (key : string) : option string :=
  environ !! key.

Definition getenv_default (environ : gmap string string) (key dflt : string) : string :=
  default dflt (environ !! key).

(** [a or b] on an optional string: [None] and [""] are falsy. *)
Definition py_or (a b : option string) : option string :=
  match a with
  | Some s => if String.eqb s "" then b else Some s
  | None => b
  end.

(** [state["iteration"] >= state["max_iterations"]], which raises a
    [TypeError] when the bound is [None]. *)
Definition _should_continue_research (state : ResearchState) : result string :=
  let iteration := iteration state in
  match max_iterations state with
  | None =>
      Raise (Exception "'>=' not supported between instances of 'int' and 'NoneType'")
  | Some max_iterations =>
      if iteration >=? max_iterations then Return "synthesizer"
      else Return "researcher"
  end.

(** The path map of a conditional edge. *)
Definition follow (path_map : list (string * node)) (key : string) : result node :=
  match List.find (λ p, String.eqb p.1 key) path_map with
  | Some p => Return p.2
  | None => Raise (Exception ("KeyError: " +:+ key))
  end.

Record ResearchResult := {
  res_query : string;
  report : string;
  iterations : Z;
  findings_count : Z
}.

Section Graph.
Context `{External}.

Record ResearchAssistant := {
  llm : LLM;
  tools : list Tool;
  llm_with_tools : LLM
}.

Definition ResearchAssistant_init (environ : gmap string string)
    (api_key : option string) : result ResearchAssistant :=
  match ChatGoogleGenerativeAI "gemini-pro"
          (py_or api_key (getenv environ "GOOGLE_API_KEY")) with
  | Raise e => Raise e
  | Return llm =>
      let tools := get_tools in
      Return {| llm := llm;
                tools := tools;
                llm_with_tools := bind_tools llm (name <$> tools) |}
  end.

Variable self : ResearchAssistant.

(** One node of the graph built by [_build_graph], followed by the edge
    that leaves it: the node's update is written to the state, then the
    plain or conditional edge picks the next node. *)
Definition step (n : node) (state : ResearchState) : M (node * ResearchState) :=
  match n with
  | START => ret (PLANNER, state)
  | PLANNER =>
      u ← planner (llm_with_tools self) state ;
      ret (RESEARCHER, apply_update u state)
  | RESEARCHER =>
      u ← researcher (llm_with_tools self) state ;
      let state' := apply_update u state in
      key ← lift (tools_condition state') ;
      next ← lift (follow [("tools", TOOLS); ("__end__", SYNTHESIZER)] key) ;
      ret (next, state')
  | TOOLS =>
      u ← ToolNode (tools self) state ;
      let state' := apply_update u state in
      key ← lift (_should_continue_research state') ;
      next ← lift (follow [("researcher", RESEARCHER); ("synthesizer", SYNTHESIZER)] key) ;
      ret (next, state')
  | SYNTHESIZER =>
      u ← synthesizer (llm_with_tools self) state ;
      ret (END, apply_update u state)
  | END => ret (END, state)
  end.

(** [graph.invoke]: nodes run until [END] is reached; when the steps
    that are left ([limit]) run out first, the run ends with [err], the
    recursion error of the library. The entry edge that leaves [START]
    counts as one step, each node with its outgoing edge as one. *)
Fixpoint invoke_from (err : exn) (limit : nat) (n : node) (state : ResearchState)
    : M ResearchState :=
  match n with
  | END => ret state
  | _ =>
      match limit with
      | O => raise err
      | S limit' =>
          '(n', state') ← step n state ;
          invoke_from err limit' n' state'
      end
  end.

Definition graph_invoke (limit : nat) (state : ResearchState) : M ResearchState :=
  invoke_from (graph_recursion_error limit) limit START state.

(** The configurations a run goes through, whether it returns or not:
    the node about to run, the state it reads, and the world. *)
Fixpoint trace_from (limit : nat) (n : node) (state : ResearchState) (w : world)
    : list (node * ResearchState * world) :=
  (n, state, w) ::
  match n with
  | END => []
  | _ =>
      match limit with
      | O => []
      | S limit' =>
          match step n state w with
          | (Return (n', state'), w') => trace_from limit' n' state' w'
          | (Raise _, _) => []
          end
      end
  end.

Definition initial_state (query : string) (max_iterations : option Z) : ResearchState :=
  {| messages := [Human query];
     research_query := query;
     findings := [];
     iteration := 0;
     max_iterations := max_iterations |}.

Definition trace (limit : nat) (query : string) (max_iterations : option Z)
    (w : world) : list (node * ResearchState * world) :=
  trace_from limit START (initial_state query max_iterations) w.

(** [result["messages"][-1]]. *)
Definition last_message (ms : list message) : result message :=
  match last ms with
  | Some m => Return m
  | None => Raise (Exception "list index out of range")
  end.

Definition research (limit : nat) (query : string) (max_iterations : option Z)
    : M ResearchResult :=
  result ← graph_invoke limit (initial_state query max_iterations) ;
  final_message ← lift (last_message (messages result)) ;
  ret {| res_query := query;
         report := message_content final_message;
         iterations := iteration result;
         findings_count := Z.of_nat (length (findings result)) |}.
End Graph.

(** ** FILE 4: api/models.py, and app/models/schemas.py *)

(** A field declared [Optional[int]] in a request body: absent, an explicit
    null, the JSON integer [z], or any other JSON value. The validation
    library reads some of these other values as integers (its lax mode: the
    string ["3"] and the number [3.0] as 3, [true] as 1) and others not
    (["abc"], [3.5], a list); [Lax reading] is such a value together with
    the integer it is read as, if any. *)
Inductive int_field := Omitted | Null | Int (z : Z) | Lax (reading : option Z).

(** The integer a value of the field is, or is read as. *)
Definition int_reading (v : int_field) : option Z :=
  match v with
  | Int z => Some z
  | Lax reading => reading
  | Omitted | Null => None
  end.

(** A request body with the two fields the request models read. [query]
    is [None] when the body has no such key or its value is not a string.
    The length of a string is its number of characters. *)
Record RequestBody := {
  body_query : option string;
  body_max_iterations : int_field
}.

(** [Field(..., min_length=lo, max_length=hi)] on a [str]: the field is
    required; a bound that is not declared is [None]. *)
Definition str_field (min_length max_length : option nat) (v : option string)
    : option string :=
  match v with
  | None => None
  | Some s =>
      let long_enough := from_option (λ lo, (lo <=? String.length s)%nat) true min_length in
      let short_enough := from_option (λ hi, (String.length s <=? hi)%nat) true max_length in
      if long_enough && short_enough then Some s else None
  end.

(** [Optional[int] = Field(dflt, ge=lo, le=hi)]: the default is taken when
    the key is absent, [None] is a value of the type, and any other value
    must be read as an integer, which the bounds constrain. *)
Definition optional_int_field (dflt lo hi : Z) (v : int_field) : option (option Z) :=
  match v with
  | Omitted => Some (Some dflt)
  | Null => Some None
  | Int _ | Lax _ =>
      z ← int_reading v ;
      if ((lo <=? z) && (z <=? hi))%Z then Some (Some z) else None
  end.

(** [ResearchRequest] of the plan: [query] has a lower bound only. *)
Record ResearchRequest := {
  rq_query : string;
  rq_max_iterations : option Z
}.

Definition ResearchRequest_validate (b : RequestBody) : option ResearchRequest :=
  q ← str_field (Some 5%nat) None (body_query b) ;
  n ← optional_int_field 3 1 10 (body_max_iterations b) ;
  Some {| rq_query := q; rq_max_iterations := n |}.

(** [AgentInput] of the application package. *)
Record AgentInput := {
  in_query : string;
  in_max_iterations : option Z
}.

Definition AgentInput_validate (b : RequestBody) : option AgentInput :=
  q ← str_field (Some 5%nat) (Some 1000%nat) (body_query b) ;
  n ← optional_int_field 3 1 10 (body_max_iterations b) ;
  Some {| in_query := q; in_max_iterations := n |}.

(** The values a caller can pass for [result] of [ToolCallResult]: [None],
    a string, a dict (its items in insertion order, with string keys and
    values), or, as a value of no member of the union, an integer. *)
Inductive pyval :=
  | PyNone
  | PyStr (s : string)
  | PyDict (d : list (string * string))
  | PyInt (z : Z).

Record ToolCallResult := {
  tool_name : string;
  success : bool;
  result_value : pyval
}.

(** The function [allow_empty_result] of the class body. *)
Definition allow_empty_result (v : pyval) : pyval :=
  match v with
  | PyNone => PyStr ""
  | _ => v
  end.

(** [Union[str, dict, None]]. *)
Definition str_dict_or_none (v : pyval) : option pyval :=
  match v with
  | PyNone | PyStr _ | PyDict _ => Some v
  | PyInt _ => None
  end.

(** [field_validator(field, /, *fields, mode='after', check_fields=None)]
    of the validation library (version 2, the one that has this function):
    the call with the keyword arguments named [keywords]. A keyword the
    function does not have is a [TypeError]. *)
Definition field_validator (field : string) (keywords : list string) : result unit :=
  match filter (λ k, k ∉ ["mode"; "check_fields"]) keywords with
  | [] => Return ()
  | k :: _ =>
      Raise (Exception ("field_validator() got an unexpected keyword argument '"
                        +:+ k +:+ "'"))
  end.

(** The statement [class ToolCallResult]: its body decorates
    [allow_empty_result] with [field_validator("result", pre=True)]. The
    class exists when that call returns; the decorated function is then
    the validator of [result]. *)
Definition ToolCallResult_class : result (pyval → pyval) :=
  match field_validator "result" ["pre"] with
  | Return _ => Return allow_empty_result
  | Raise e => Raise e
  end.

(** [ToolCallResult(tool_name=.., success=.., result=..)], which needs the
    class. *)
Definition ToolCallResult_new (tool_name : string) (success : bool) (value : pyval)
    : result ToolCallResult :=
  match ToolCallResult_class with
  | Raise e => Raise e
  | Return validator =>
      match str_dict_or_none (validator value) with
      | Some v =>
          Return {| tool_name := tool_name; success := success; result_value := v |}
      | None => Raise (Exception "1 validation error for ToolCallResult")
      end
  end.

(** ** FILE 5: api/main.py *)

Record ResearchResponse := {
  rs_success : bool;
  rs_query : string;
  rs_report : string;
  rs_iterations : Z;
  rs_findings_count : Z
}.

(** What the server answers: the JSON of a [ResearchResponse], the JSON
    of an [HTTPException], the validation failure of a request (422), or
    a streamed body. *)
Inductive http_response :=
  | JSONResponse (status_code : Z) (body : ResearchResponse)
  | HTTPException (status_code : Z) (detail : string)
  | RequestValidationError
  | StreamingResponse (status_code : Z) (media_type : string) (chunks : list string).

Definition status_of (r : http_response) : Z :=
  match r with
  | JSONResponse c _ | HTTPException c _ | StreamingResponse c _ _ => c
  | RequestValidationError => 422
  end.

(** [verify_api_key]: the header value, or the [HTTPException] raised. *)
Definition verify_api_key (environ : gmap string string) (x_api_key : string)
    : http_response + string :=
  let expected_key := getenv_default environ "API_KEY" "your-secret-key" in
  if bool_decide (x_api_key ≠ expected_key)
  then inl (HTTPException 401 "Invalid API key")
  else inr x_api_key.

(** What the framework does before it calls an endpoint declared with
    [request: ResearchRequest] and [Depends(verify_api_key)]: the required
    header, the dependency, the body. The endpoint function runs only on
    [inr]. *)
Definition screen_request (environ : gmap string string) (x_api_key : option string)
    (b : RequestBody) : http_response + ResearchRequest :=
  match x_api_key with
  | None => inl RequestValidationError
  | Some k =>
      match verify_api_key environ k with
      | inl r => inl r
      | inr _ =>
          match ResearchRequest_validate b with
          | None => inl RequestValidationError
          | Some request => inr request
          end
      end
  end.

Definition sse (text : string) : string := "data: " +:+ text +:+ nl +:+ nl.

Section Api.
Context `{External}.

(** The module global [research_agent]: [None] until [lifespan] ran. *)
Variable research_agent : option ResearchAssistant.

(** The steps a run of the compiled graph may take, the entry edge
    included. *)
Variable limit : nat.

(** [lifespan], up to its [yield]: the value assigned to the global. *)
Definition lifespan (environ : gmap string string) : result ResearchAssistant :=
  ResearchAssistant_init environ None.

(** The body of [conduct_research]. [processing_time], a difference of
    two readings of the wall clock, is left out of the response. *)
Definition conduct_research_body (request : ResearchRequest) : M http_response :=
  match research_agent with
  | None => ret (HTTPException 503 "Agent not initialized")
  | Some agent =>
      try_except
        (result ← research agent limit (rq_query request) (rq_max_iterations request) ;
         ret (JSONResponse 200
                {| rs_success := true;
                   rs_query := res_query result;
                   rs_report := report result;
                   rs_iterations := iterations result;
                   rs_findings_count := findings_count result |}))
        (λ e, ret (HTTPException 500 ("Research failed: " +:+ str e)))
  end.

(** [research_agent.research(...)] inside [generate]: on [None] the
    attribute access raises. *)
Definition agent_research (request : ResearchRequest) : M ResearchResult :=
  match research_agent with
  | None => raise (Exception "'NoneType' object has no attribute 'research'")
  | Some agent => research agent limit (rq_query request) (rq_max_iterations request)
  end.

(** The chunks [generate] yields when it is run to its end. The first
    [yield] precedes the call and cannot raise, so it is part of the
    output on both paths of the [try]. *)
Definition generate (request : ResearchRequest) : M (list string) :=
  let started := sse ("Starting research for: " +:+ rq_query request) in
  try_except
    (result ← agent_research request ;
     ret [started; sse (report result); sse "[DONE]"])
    (λ e, ret [started; sse ("Error: " +:+ str e)]).

Definition conduct_research_streaming_body (request : ResearchRequest)
    : M http_response :=
  chunks ← generate request ;
  ret (StreamingResponse 200 "text/event-stream" chunks).

(** The two routes, from the request to the response. *)
Definition conduct_research (environ : gmap string string)
    (x_api_key : option string) (b : RequestBody) : M http_response :=
  match screen_request environ x_api_key b with
  | inl r => ret r
  | inr request => conduct_research_body request
  end.

Definition conduct_research_streaming (environ : gmap string string)
    (x_api_key : option string) (b : RequestBody) : M http_response :=
  match screen_request environ x_api_key b with
  | inl r => ret r
  | inr request => conduct_research_streaming_body request
  end.
End Api.

(** ** Stand-ins for the external collaborators

    The world of the stand-ins is the script of the chat model: the
    replies it will give, in order; when the script is used up the model
    answers with a final text and no tool call. The search is offline,
    one page can be loaded, and the splitter returns its input. *)

Definition scripted_llm (w : list (result AIMessage))
    : result AIMessage * list (result AIMessage) :=
  match w with
  | [] => (Return {| content := "Final report"; tool_calls := [] |}, [])
  | r :: w' => (r, w')
  end.

Definition offline_search (w : list (result AIMessage))
    : result string * list (result AIMessage) :=
  (Raise (Exception "connection timed out"), w).

Definition one_page (url : string) (w : list (result AIMessage))
    : result (list string) * list (result AIMessage) :=
  if String.eqb url "https://example.org"
  then (Return ["part one"; "part two"; "part three"; "part four"], w)
  else (Raise (Exception "404 Not Found"), w).

(** The recursion error of the stand-ins. *)
Definition stand_in_recursion_error (N : nat) : exn :=
  Exception ("Recursion limit of " +:+ pretty N +:+ " reached").

(** The text of the stand-ins for a tool that raises. *)
Definition stand_in_tool_error (e : exn) : string :=
  "Error: " +:+ str e.

(** A set of strings listed in the order of its [gset]. *)
Definition gset_order (xs : list string) : list string :=
  elements (list_to_set xs : gset string).

Lemma gset_order_NoDup xs : NoDup (gset_order xs).
Proof. unfold gset_order. apply NoDup_elements. Qed.

Lemma gset_order_elem xs x : x ∈ gset_order xs ↔ x ∈ xs.
Proof. unfold gset_order. rewrite elem_of_elements. apply elem_of_list_to_set. Qed.

Lemma rev_gset_order_NoDup xs : NoDup (reverse (gset_order xs)).
Proof. rewrite reverse_Permutation. apply gset_order_NoDup. Qed.

Lemma rev_gset_order_elem xs x : x ∈ reverse (gset_order xs) ↔ x ∈ xs.
Proof. rewrite elem_of_reverse. apply gset_order_elem. Qed.

Definition scripted : External :=
  {| world := list (result AIMessage);
     LLM := unit;
     graph_recursion_error := stand_in_recursion_error;
     tool_error_content := stand_in_tool_error;
     ChatGoogleGenerativeAI := λ _ _, Return ();
     bind_tools := λ m _, m;
     llm_invoke := λ _ _, scripted_llm;
     search_run := λ _, offline_search;
     loader_load := one_page;
     split_documents := λ _ _ docs, Return docs;
     set_list := gset_order;
     set_list_NoDup := gset_order_NoDup;
     set_list_elem := gset_order_elem |}.

(** The same stand-ins with sets listed in the opposite order. *)
Definition scripted_rev : External :=
  {| world := list (result AIMessage);
     LLM := unit;
     graph_recursion_error := stand_in_recursion_error;
     tool_error_content := stand_in_tool_error;
     ChatGoogleGenerativeAI := λ _ _, Return ();
     bind_tools := λ m _, m;
     llm_invoke := λ _ _, scripted_llm;
     search_run := λ _, offline_search;
     loader_load := one_page;
     split_documents := λ _ _ docs, Return docs;
     set_list := λ xs, reverse (gset_order xs);
     set_list_NoDup := rev_gset_order_NoDup;
     set_list_elem := rev_gset_order_elem |}.

(** The agent of the stand-ins, and some replies of the model. *)
Definition scripted_agent : @ResearchAssistant scripted :=
  @Build_ResearchAssistant scripted tt (@get_tools scripted) tt.

Definition plain_reply (text : string) : result AIMessage :=
  Return {| content := text; tool_calls := [] |}.

Definition search_reply (q : string) : result AIMessage :=
  Return {| content := "";
            tool_calls := [ {| tc_name := "web_search"; tc_args := q; tc_id := "call_1" |} ] |}.

(** Inputs of the stand-ins: a query, a script in which the model asks
    for a search twice before it reports, and a script in which the first
    call of the model fails. *)
Definition demo_query : string := "What are recent advances in AI?".

Definition tool_script : list (result AIMessage) :=
  [ plain_reply "plan"; search_reply "recent AI"; search_reply "AI safety";
    plain_reply "enough material"; plain_reply "REPORT" ].

Definition quota_script : list (result AIMessage) :=
  [ Raise (Exception "quota exceeded") ].

Definition demo_body : RequestBody :=
  {| body_query := Some demo_query; body_max_iterations := Omitted |}.

(** A body whose bound is the string ["3"], which is read as 3. *)
Definition lax_body : RequestBody :=
  {| body_query := Some demo_query; body_max_iterations := Lax (Some 3) |}.

(** A query longer than a thousand characters. *)
Definition long_query : string := String.string_of_list_ascii (replicate 1001 (Ascii.ascii_of_nat 97)).

(** ** Reachable configurations *)

(** The configurations of a run of [research]: the first one, and those a
    node and its outgoing edge lead to. *)
Inductive reachable `{External} (self : ResearchAssistant) (query : string)
    (max_iterations : option Z) (w0 : world)
    : node → ResearchState → world → Prop :=
  | reachable_start :
      reachable self query max_iterations w0
                START (initial_state query max_iterations) w0
  | reachable_step n state w n' state' w' :
      reachable self query max_iterations w0 n state w →
      step self n state w = (Return (n', state'), w') →
      reachable self query max_iterations w0 n' state' w'.

(** What a node sends to the chat model. *)
Definition llm_input (n : node) (state : ResearchState) : list message :=
  match n with
  | PLANNER => [System planner_prompt] ++ messages state
  | RESEARCHER => [System researcher_prompt] ++ messages state
  | SYNTHESIZER => [System synthesizer_prompt; Human (synthesis_prompt (findings state))]
  | _ => []
  end.

Definition calls_llm (n : node) : bool :=
  match n with
  | PLANNER | RESEARCHER | SYNTHESIZER => true
  | _ => false
  end.

(** The nodes of a trace, and how often a node occurs in it. *)
Definition nodes_of `{External} (tr : list (node * ResearchState * world)) : list node :=
  (λ c, c.1.1) <$> tr.

Definition passes (n : node) (ns : list node) : nat :=
  length (filter (λ m, m = n) ns).

(** The configurations of a trace that enter [RESEARCHER] with the counter
    at or above the bound [N]. *)
Definition late_research `{External} (N : Z)
    (tr : list (node * ResearchState * world)) : list (node * ResearchState * world) :=
  filter (λ c, c.1.1 = RESEARCHER ∧ N ≤ iteration c.1.2) tr.

(** What holds of every configuration of a run started with the bound
    [bound]: the counter is 0 before the planner ran and 1 afterwards; the
    tools node reads a reply that asks for tools; the synthesizer follows
    a reply that asks for none, unless the bound is at most 1. *)
Definition run_invariant (bound : option Z) (n : node) (state : ResearchState) : Prop :=
  max_iterations state = bound ∧
  match n with
  | START | PLANNER => iteration state = 0
  | RESEARCHER | END => iteration state = 1
  | TOOLS =>
      iteration state = 1 ∧
      ∃ m, last (messages state) = Some (AI m) ∧ tool_calls m ≠ []
  | SYNTHESIZER =>
      iteration state = 1 ∧
      ((∃ m, last (messages state) = Some (AI m) ∧ tool_calls m = []) ∨
       (∃ N, bound = Some N ∧ N ≤ 1))
  end.

(** A [max_iterations] that is absent, or is or is read as an integer
    from 1 to 10. *)
Definition max_iterations_ok (v : int_field) : Prop :=
  v = Omitted ∨ ∃ z, int_reading v = Some z ∧ 1 ≤ z ≤ 10.

(** ** The lines of a streamed body *)

(** [s.split("\n")]. *)
Fixpoint split_lines (s : string) : list string :=
  match s with
  | "" => [""]
  | String c s' =>
      if Ascii.eqb c (Ascii.ascii_of_nat 10) then "" :: split_lines s'
      else match split_lines s' with
           | l :: ls => String c l :: ls
           | [] => [String c ""]
           end
  end.

(** The body a client receives: the chunks one after the other. *)
Definition stream_text (chunks : list string) : string :=
  foldr String.append "" chunks.

(** Its lines, the empty ones left aside. *)
Definition stream_lines (chunks : list string) : list string :=
  filter (λ l, l ≠ "") (split_lines (stream_text chunks)).

(** A line of the form [data: <text>]. *)
Definition data_line (l : string) : Prop := ∃ text, l = "data: " +:+ text.

(** A text without line feed. *)
Fixpoint one_line (s : string) : bool :=
  match s with
  | "" => true
  | String c s' => negb (Ascii.eqb c (Ascii.ascii_of_nat 10)) && one_line s'
  end.

(** A script whose report has two lines. *)
Definition two_line_script : list (result AIMessage) :=
  [ plain_reply "plan"; plain_reply "nothing to look up";
    plain_reply ("Findings" +:+ nl +:+ "Sources: none") ].

(** ** Further parts of the program *)

(** The exception of [_should_continue_research] on a state without a
    bound. *)
Definition none_bound_error : exn :=
  Exception "'>=' not supported between instances of 'int' and 'NoneType'".

(** How many nodes of a trace call the chat model. *)
Definition model_calls (ns : list node) : nat :=
  length (filter (λ n, calls_llm n = true) ns).

(** [ResearchTaskRequest] of the application package. *)
Record ResearchTaskRequest := {
  task_query : string;
  task_max_iterations : option Z
}.

Definition ResearchTaskRequest_validate (b : RequestBody) : option ResearchTaskRequest :=
  q ← str_field (Some 5%nat) (Some 1000%nat) (body_query b) ;
  n ← optional_int_field 3 1 10 (body_max_iterations b) ;
  Some {| task_query := q; task_max_iterations := n |}.

(** A stand-in whose model asks for a search in every reply. *)
Definition insistent : External :=
  {| world := unit;
     LLM := unit;
     graph_recursion_error := stand_in_recursion_error;
     tool_error_content := stand_in_tool_error;
     ChatGoogleGenerativeAI := λ _ _, Return ();
     bind_tools := λ m _, m;
     llm_invoke := λ _ _ w, (search_reply "more", w);
     search_run := λ _ w, (Return "results", w);
     loader_load := λ _ w, (Return [], w);
     split_documents := λ _ _ docs, Return docs;
     set_list := gset_order;
     set_list_NoDup := gset_order_NoDup;
     set_list_elem := gset_order_elem |}.

Definition insistent_agent : @ResearchAssistant insistent :=
  @Build_ResearchAssistant insistent tt (@get_tools insistent) tt.

(** A script without tool calls, and a body with a null bound. *)
Definition plain_script : list (result AIMessage) :=
  [ plain_reply "plan"; plain_reply "nothing to look up"; plain_reply "REPORT" ].

Definition one_tool_script : list (result AIMessage) :=
  [ plain_reply "plan"; search_reply "recent AI"; plain_reply "REPORT" ].

Definition null_body : RequestBody :=
  {| body_query := Some demo_query; body_max_iterations := Null |}.

(** * Properties of the program *)

(** ** The monad *)

Section Monad_facts.
Context `{External}.

Lemma bind_Return {A B} (m : M A) (k : A → M B) w a w' :
  m w = (Return a, w') → (m ≫= k) w = k a w'.
Proof. intros Hm. unfold mbind, M_bind, bind. by rewrite Hm. Qed.

Lemma bind_Raise {A B} (m : M A) (k : A → M B) w e w' :
  m w = (Raise e, w') → (m ≫= k) w = (Raise e, w').
Proof. intros Hm. unfold mbind, M_bind, bind. by rewrite Hm. Qed.

Lemma bind_inv_Return {A B} (m : M A) (k : A → M B) w b w2 :
  (m ≫= k) w = (Return b, w2) →
  ∃ a w1, m w = (Return a, w1) ∧ k a w1 = (Return b, w2).
Proof.
  unfold mbind, M_bind, bind. destruct (m w) as [[a|e] w1]; [eauto | discriminate].
Qed.

Lemma bind_inv_Raise {A B} (m : M A) (k : A → M B) w e w2 :
  (m ≫= k) w = (Raise e, w2) →
  m w = (Raise e, w2) ∨ ∃ a w1, m w = (Return a, w1) ∧ k a w1 = (Raise e, w2).
Proof.
  unfold mbind, M_bind, bind. destruct (m w) as [[a|e'] w1]; [eauto | left; congruence].
Qed.

Lemma try_except_returns {A} (m : M A) (h : exn → M A) w :
  (∀ e w1, ∃ a w2, h e w1 = (Return a, w2)) →
  ∃ a w', try_except m h w = (Return a, w').
Proof.
  intros Hh. unfold try_except. destruct (m w) as [[a|e] w1]; [eauto | apply Hh].
Qed.
End Monad_facts.

(** ** The tools never raise *)

Section Tool_facts.
Context `{External}.

Lemma web_search_returns query w : ∃ s w', web_search query w = (Return s, w').
Proof. apply try_except_returns. intros e w1. by eexists _, _. Qed.

Lemma fetch_webpage_returns url w : ∃ s w', fetch_webpage url w = (Return s, w').
Proof. apply try_except_returns. intros e w1. by eexists _, _. Qed.

Lemma run_tool_call_returns tools c w :
  ∃ m w', run_tool_call tools c w = (Return m, w').
Proof.
  unfold run_tool_call. destruct (find_tool tools (tc_name c)) as [t|].
  - destruct (try_except_returns (func t (tc_args c))
                (λ e, ret (tool_error_content e)) w)
      as (text & w' & Ht); [intros; by eexists _, _ |].
    eexists _, _. erewrite bind_Return by exact Ht. reflexivity.
  - by eexists _, _.
Qed.

Lemma run_tool_calls_returns tools cs w :
  ∃ ms w', run_tool_calls tools cs w = (Return ms, w').
Proof.
  revert w. induction cs as [|c cs IH]; intros w; simpl.
  - by eexists _, _.
  - destruct (run_tool_call_returns tools c w) as (m & w1 & Hm).
    destruct (IH w1) as (ms & w2 & Hms).
    eexists _, _. erewrite bind_Return by exact Hm.
    erewrite bind_Return by exact Hms. reflexivity.
Qed.
End Tool_facts.

(** ** One step of the graph *)

Section Step_facts.
Context `{External} {err : exn}.
Variable self : ResearchAssistant.

Lemma step_PLANNER_inv state w n' state' w' :
  step self PLANNER state w = (Return (n', state'), w') →
  n' = RESEARCHER ∧
  ∃ r, llm_invoke (llm_with_tools self) (llm_input PLANNER state) w = (Return r, w') ∧
       state' = {| messages := [AI r];
                   research_query := research_query state;
                   findings := findings state;
                   iteration := iteration state + 1;
                   max_iterations := max_iterations state |}.
Proof.
  intros Hs. apply bind_inv_Return in Hs as (u & w1 & Hu & Hs).
  apply bind_inv_Return in Hu as (r & w2 & Hr & Hu).
  injection Hu as <- <-. injection Hs as <- <- <-. eauto.
Qed.

Lemma step_RESEARCHER_inv state w n' state' w' :
  step self RESEARCHER state w = (Return (n', state'), w') →
  ∃ r, llm_invoke (llm_with_tools self) (llm_input RESEARCHER state) w = (Return r, w') ∧
       state' = {| messages := [AI r];
                   research_query := research_query state;
                   findings := findings state;
                   iteration := iteration state;
                   max_iterations := max_iterations state |} ∧
       n' = match tool_calls r with [] => SYNTHESIZER | _ :: _ => TOOLS end.
Proof.
  intros Hs. apply bind_inv_Return in Hs as (u & w1 & Hu & Hs).
  apply bind_inv_Return in Hu as (r & w2 & Hr & Hu).
  injection Hu as <- <-. exists r. revert Hs.
  unfold mbind, M_bind, bind, lift, tools_condition, apply_update; simpl.
  destruct (tool_calls r); simpl; intros [= <- <- <-]; eauto.
Qed.

Lemma step_TOOLS_inv state w n' state' w' :
  step self TOOLS state w = (Return (n', state'), w') →
  ∃ m outputs N,
    last (messages state) = Some (AI m) ∧
    run_tool_calls (tools self) (tool_calls m) w = (Return outputs, w') ∧
    max_iterations state = Some N ∧
    state' = {| messages := outputs;
                research_query := research_query state;
                findings := findings state;
                iteration := iteration state;
                max_iterations := max_iterations state |} ∧
    n' = if iteration state >=? N then SYNTHESIZER else RESEARCHER.
Proof.
  intros Hs. apply bind_inv_Return in Hs as (u & w1 & Hu & Hs).
  unfold ToolNode in Hu.
  destruct (last (messages state)) as [[| |m|]|]; try discriminate.
  apply bind_inv_Return in Hu as (outputs & w2 & Ho & Hu).
  injection Hu as <- <-. revert Hs.
  unfold mbind, M_bind, bind, lift, _should_continue_research, apply_update; simpl.
  destruct (max_iterations state) as [N|] eqn:HN; [| discriminate].
  destruct (iteration state >=? N) eqn:Hge; simpl; intros [= <- <- <-];
    exists m, outputs, N; rewrite ?Hge; eauto 10.
Qed.

Lemma step_SYNTHESIZER_inv state w n' state' w' :
  step self SYNTHESIZER state w = (Return (n', state'), w') →
  n' = END ∧
  ∃ r, llm_invoke (llm_with_tools self) (llm_input SYNTHESIZER state) w = (Return r, w') ∧
       state' = {| messages := [AI r];
                   research_query := research_query state;
                   findings := findings state ++ [content r];
                   iteration := iteration state;
                   max_iterations := max_iterations state |}.
Proof.
  intros Hs. apply bind_inv_Return in Hs as (u & w1 & Hu & Hs).
  apply bind_inv_Return in Hu as (r & w2 & Hr & Hu).
  injection Hu as <- <-. injection Hs as <- <- <-. eauto.
Qed.

(** A node that calls the model and gets an exception raises it. *)
Lemma step_llm_raises n state w e w' :
  calls_llm n = true →
  llm_invoke (llm_with_tools self) (llm_input n state) w = (Raise e, w') →
  step self n state w = (Raise e, w').
Proof.
  intros Hn Hr. destruct n; try discriminate; simpl;
    unfold planner, researcher, synthesizer;
    (erewrite bind_Raise; [reflexivity |]);
    (erewrite bind_Raise; [reflexivity | exact Hr]).
Qed.

(** The tools node of a state whose last message is a reply of the model
    returns, and the bound decides where it goes. *)
Lemma step_TOOLS_returns state w m N :
  last (messages state) = Some (AI m) →
  max_iterations state = Some N →
  ∃ state' w',
    step self TOOLS state w =
      (Return (if iteration state >=? N then SYNTHESIZER else RESEARCHER, state'), w').
Proof.
  intros Hm HN.
  destruct (run_tool_calls_returns (tools self) (tool_calls m) w) as (outputs & w' & Ho).
  eexists _, w'. simpl. unfold ToolNode. rewrite Hm.
  unfold mbind, M_bind, bind, lift, _should_continue_research, apply_update, ret; simpl.
  unfold mbind, M_bind, bind in Ho. rewrite Ho. simpl. rewrite HN.
  destruct (iteration state >=? N); reflexivity.
Qed.
End Step_facts.

(** ** Runs of the graph *)

Section Run_facts.
Context `{External} {err : exn}.
Variable self : ResearchAssistant.

Lemma run_invariant_start query bound :
  run_invariant bound START (initial_state query bound).
Proof. by split. Qed.

Lemma run_invariant_step bound n state w n' state' w' :
  run_invariant bound n state →
  step self n state w = (Return (n', state'), w') →
  run_invariant bound n' state'.
Proof.
  intros [Hb Hn] Hs. destruct n.
  - injection Hs as <- <- <-. by split.
  - apply step_PLANNER_inv in Hs as (-> & r & _ & ->). split; simpl; [done | lia].
  - apply step_RESEARCHER_inv in Hs as (r & _ & -> & ->).
    destruct (tool_calls r) eqn:Hr; (split; [done |]); simpl;
      (split; [done |]); [left|]; exists r; by rewrite Hr.
  - destruct Hn as [Hi _].
    apply step_TOOLS_inv in Hs as (m & outputs & N & _ & _ & HN & -> & ->).
    destruct (iteration state >=? N) eqn:Hge; (split; [done |]); simpl; [| done].
    split; [done |]. right. exists N. split; [congruence | lia].
  - destruct Hn as [Hi _].
    apply step_SYNTHESIZER_inv in Hs as (-> & r & _ & ->). by split.
  - injection Hs as <- <- <-. by split.
Qed.

Lemma reachable_invariant query bound w0 n state w :
  reachable self query bound w0 n state w → run_invariant bound n state.
Proof.
  induction 1 as [|n state w n' state' w' _ IH Hs].
  - apply run_invariant_start.
  - eapply run_invariant_step; eauto.
Qed.

(** Unfolding a run by one node. *)
Lemma trace_from_END limit state w :
  trace_from self limit END state w = [(END, state, w)].
Proof. by destruct limit. Qed.

Lemma trace_from_O n state w :
  trace_from self 0 n state w = [(n, state, w)].
Proof. by destruct n. Qed.

Lemma trace_from_S limit n state w :
  n ≠ END →
  trace_from self (S limit) n state w =
    (n, state, w) ::
    match step self n state w with
    | (Return (n', state'), w') => trace_from self limit n' state' w'
    | (Raise _, _) => []
    end.
Proof. by destruct n. Qed.

Lemma invoke_from_END limit state w :
  invoke_from self err limit END state w = (Return state, w).
Proof. by destruct limit. Qed.

Lemma invoke_from_S limit n state w :
  n ≠ END →
  invoke_from self err (S limit) n state w =
    match step self n state w with
    | (Return (n', state'), w') => invoke_from self err limit n' state' w'
    | (Raise e, w') => (Raise e, w')
    end.
Proof.
  intros Hn. destruct n; try done; simpl; unfold mbind, M_bind, bind;
    by destruct (_ : result (node * ResearchState) * world) as [[[n' state']|e] w'].
Qed.

(** The configurations of a trace are reachable, and consecutive ones are
    related by a step. *)
Lemma trace_from_reachable query bound w0 limit n state w i n1 state1 w1 :
  reachable self query bound w0 n state w →
  trace_from self limit n state w !! i = Some (n1, state1, w1) →
  reachable self query bound w0 n1 state1 w1.
Proof.
  revert n state w i. induction limit as [|limit IH]; intros n state w i Hr Hi.
  - rewrite trace_from_O in Hi. destruct i; [| done]. by injection Hi as <- <- <-.
  - destruct (decide (n = END)) as [->|Hn].
    + rewrite trace_from_END in Hi. destruct i; [| done]. by injection Hi as <- <- <-.
    + rewrite trace_from_S in Hi by done.
      destruct i as [|i]; [by injection Hi as <- <- <- |]. simpl in Hi.
      destruct (step self n state w) as [[[n' state']|e] w'] eqn:Hs; [| done].
      eapply IH; [| exact Hi]. eapply reachable_step; eauto.
Qed.

Lemma trace_reachable limit query bound w0 i n state w :
  trace self limit query bound w0 !! i = Some (n, state, w) →
  reachable self query bound w0 n state w.
Proof. apply trace_from_reachable, reachable_start. Qed.

Lemma trace_from_step limit n state w i n1 state1 w1 n2 state2 w2 :
  trace_from self limit n state w !! i = Some (n1, state1, w1) →
  trace_from self limit n state w !! S i = Some (n2, state2, w2) →
  step self n1 state1 w1 = (Return (n2, state2), w2).
Proof.
  revert n state w i. induction limit as [|limit IH]; intros n state w i H1 H2.
  - by rewrite trace_from_O in H2.
  - destruct (decide (n = END)) as [->|Hn]; [by rewrite trace_from_END in H2 |].
    rewrite trace_from_S in H1, H2 by done. simpl in H2.
    destruct (step self n state w) as [[[n' state']|e] w'] eqn:Hs; [| done].
    destruct i as [|i].
    + injection H1 as <- <- <-.
      destruct limit, n'; simpl in H2; by injection H2 as <- <- <-.
    + simpl in H1. eapply IH; eauto.
Qed.

(** A node of the trace that is run and raises ends the run with its
    exception. *)
Lemma trace_from_raises limit n state w i n1 state1 w1 e w2 :
  trace_from self limit n state w !! i = Some (n1, state1, w1) →
  (i < limit)%nat →
  step self n1 state1 w1 = (Raise e, w2) →
  invoke_from self err limit n state w = (Raise e, w2).
Proof.
  revert n state w i. induction limit as [|limit IH]; intros n state w i Hi Hlt Hs; [lia |].
  destruct (decide (n = END)) as [->|Hn].
  { rewrite trace_from_END in Hi. destruct i; [| done]. by injection Hi as <- <- <-. }
  rewrite trace_from_S in Hi by done. rewrite invoke_from_S by done.
  destruct i as [|i].
  - injection Hi as <- <- <-. by rewrite Hs.
  - simpl in Hi. destruct (step self n state w) as [[[n' state']|e'] w'] eqn:Hs'; [| done].
    eapply IH; eauto. lia.
Qed.
End Run_facts.

(** ** Counting the passes of a run *)

Section Count_facts.
Context `{External} {err : exn}.
Variable self : ResearchAssistant.

Lemma passes_cons n m ns :
  passes n (m :: ns) = if decide (m = n) then S (passes n ns) else passes n ns.
Proof. unfold passes. rewrite filter_cons. by destruct (decide (m = n)). Qed.

Lemma nodes_of_cons n state w tr :
  nodes_of ((n, state, w) :: tr) = n :: nodes_of tr.
Proof. reflexivity. Qed.

Lemma step_START state w : step self START state w = (Return (PLANNER, state), w).
Proof. reflexivity. Qed.

Lemma passes_single n m state w :
  m ≠ n → passes n (nodes_of [(m, state, w)]) = 0%nat.
Proof. intros Hm. unfold nodes_of. simpl. rewrite passes_cons. by case_decide. Qed.

(** The counter moves in the planner only, the findings grow in the
    synthesizer only, and the planner is entered from the start only. *)
Lemma step_iteration n state w n' state' w' :
  step self n state w = (Return (n', state'), w') →
  iteration state' = if decide (n = PLANNER) then iteration state + 1 else iteration state.
Proof.
  intros Hs. destruct n; simpl.
  - by injection Hs as <- <- <-.
  - by apply step_PLANNER_inv in Hs as (_ & r & _ & ->).
  - by apply step_RESEARCHER_inv in Hs as (r & _ & -> & _).
  - by apply step_TOOLS_inv in Hs as (m & outputs & N & _ & _ & _ & -> & _).
  - by apply step_SYNTHESIZER_inv in Hs as (_ & r & _ & ->).
  - by injection Hs as <- <- <-.
Qed.

Lemma step_findings n state w n' state' w' :
  step self n state w = (Return (n', state'), w') →
  length (findings state') =
    if decide (n = SYNTHESIZER) then S (length (findings state))
    else length (findings state).
Proof.
  intros Hs. destruct n; simpl.
  - by injection Hs as <- <- <-.
  - by apply step_PLANNER_inv in Hs as (_ & r & _ & ->).
  - by apply step_RESEARCHER_inv in Hs as (r & _ & -> & _).
  - by apply step_TOOLS_inv in Hs as (m & outputs & N & _ & _ & _ & -> & _).
  - apply step_SYNTHESIZER_inv in Hs as (_ & r & _ & ->). simpl.
    rewrite length_app. simpl. lia.
  - by injection Hs as <- <- <-.
Qed.

Lemma step_into_PLANNER n state w state' w' :
  step self n state w = (Return (PLANNER, state'), w') → n = START.
Proof.
  intros Hs. destruct n; [done | | | | |].
  - by apply step_PLANNER_inv in Hs as (? & _).
  - apply step_RESEARCHER_inv in Hs as (r & _ & _ & Hn). by destruct (tool_calls r).
  - apply step_TOOLS_inv in Hs as (m & outputs & N & _ & _ & _ & _ & Hn).
    by destruct (iteration state >=? N).
  - by apply step_SYNTHESIZER_inv in Hs as (? & _).
  - by injection Hs.
Qed.

Lemma step_into_START n state w state' w' :
  step self n state w = (Return (START, state'), w') → False.
Proof.
  intros Hs. destruct n.
  - by injection Hs.
  - by apply step_PLANNER_inv in Hs as (? & _).
  - apply step_RESEARCHER_inv in Hs as (r & _ & _ & Hn). by destruct (tool_calls r).
  - apply step_TOOLS_inv in Hs as (m & outputs & N & _ & _ & _ & _ & Hn).
    by destruct (iteration state >=? N).
  - by apply step_SYNTHESIZER_inv in Hs as (? & _).
  - by injection Hs.
Qed.

(** A run that returns ends in [END] with the returned state; its
    findings count the synthesizer passes and its counter the planner
    passes. *)
Lemma invoke_from_counts limit n state w final w' :
  invoke_from self err limit n state w = (Return final, w') →
  last (trace_from self limit n state w) = Some (END, final, w') ∧
  length (findings final) =
    (length (findings state) +
     passes SYNTHESIZER (nodes_of (trace_from self limit n state w)))%nat ∧
  iteration final =
    iteration state + Z.of_nat (passes PLANNER (nodes_of (trace_from self limit n state w))).
Proof.
  revert n state w. induction limit as [|limit IH]; intros n state w Hrun.
  - destruct n; try discriminate. injection Hrun as <- <-.
    rewrite trace_from_O, !passes_single by done. split_and!; [done | lia | lia].
  - destruct (decide (n = END)) as [->|Hn].
    { rewrite invoke_from_END in Hrun. injection Hrun as <- <-.
      rewrite trace_from_END, !passes_single by done. split_and!; [done | lia | lia]. }
    rewrite invoke_from_S in Hrun by done. rewrite trace_from_S by done.
    destruct (step self n state w) as [[[n1 state1]|e] w1] eqn:Hs; [| done].
    destruct (IH _ _ _ Hrun) as (Hlast & Hf & Hi).
    pose proof (step_iteration _ _ _ _ _ _ Hs) as Hi1.
    pose proof (step_findings _ _ _ _ _ _ Hs) as Hf1.
    split_and!.
    + rewrite last_cons, Hlast. done.
    + rewrite nodes_of_cons, passes_cons, Hf, Hf1. repeat case_decide; lia.
    + rewrite nodes_of_cons, passes_cons, Hi, Hi1. repeat case_decide; lia.
Qed.

(** Once the planner is behind, it does not come back. *)
Lemma no_planner_after limit n state w :
  n ≠ START → n ≠ PLANNER →
  passes PLANNER (nodes_of (trace_from self limit n state w)) = 0%nat.
Proof.
  revert n state w. induction limit as [|limit IH]; intros n state w H1 H2.
  - by rewrite trace_from_O, passes_single.
  - destruct (decide (n = END)) as [->|Hn].
    { by rewrite trace_from_END, passes_single. }
    rewrite trace_from_S by done.
    rewrite nodes_of_cons, passes_cons. case_decide; [done |].
    destruct (step self n state w) as [[[n1 state1]|e] w1] eqn:Hs; [| done].
    apply IH.
    + intros ->. by apply step_into_START in Hs.
    + intros ->. by apply step_into_PLANNER in Hs.
Qed.

(** A run of [research] that returns entered the planner once. *)
Lemma planner_once limit query bound w final w' :
  graph_invoke self limit (initial_state query bound) w = (Return final, w') →
  passes PLANNER (nodes_of (trace self limit query bound w)) = 1%nat.
Proof.
  unfold graph_invoke, trace. intros Hrun.
  destruct limit as [|limit]; [done |].
  rewrite invoke_from_S in Hrun by done. rewrite trace_from_S by done.
  rewrite step_START in Hrun |- *.
  destruct limit as [|limit]; [done |].
  rewrite invoke_from_S in Hrun by done. rewrite trace_from_S by done.
  destruct (step self PLANNER _ w) as [[[n1 state1]|e] w1] eqn:Hs; [| done].
  apply step_PLANNER_inv in Hs as (-> & _).
  rewrite !nodes_of_cons, !passes_cons, no_planner_after by done.
  by repeat case_decide.
Qed.
End Count_facts.

(** ** What [research] returns *)

Section Research_facts.
Context `{External} {err : exn}.
Variable self : ResearchAssistant.

Lemma research_inv limit query bound w r w' :
  research self limit query bound w = (Return r, w') →
  ∃ final,
    graph_invoke self limit (initial_state query bound) w = (Return final, w') ∧
    iterations r = iteration final ∧
    findings_count r = Z.of_nat (length (findings final)).
Proof.
  intros Hr. apply bind_inv_Return in Hr as (final & w1 & Hrun & Hr).
  apply bind_inv_Return in Hr as (m & w2 & Hm & Hr).
  unfold lift in Hm. injection Hm as _ <-. injection Hr as <- <-. eauto.
Qed.

Lemma research_raises limit query bound w e w' :
  graph_invoke self limit (initial_state query bound) w = (Raise e, w') →
  research self limit query bound w = (Raise e, w').
Proof. intros Hrun. unfold research. by erewrite bind_Raise. Qed.

Lemma step_into_END n state w state' w' :
  step self n state w = (Return (END, state'), w') → n = SYNTHESIZER ∨ n = END.
Proof.
  intros Hs. destruct n; [| | | | by left | by right].
  - by injection Hs.
  - by apply step_PLANNER_inv in Hs as (? & _).
  - apply step_RESEARCHER_inv in Hs as (r & _ & _ & Hn). by destruct (tool_calls r).
  - apply step_TOOLS_inv in Hs as (m & outputs & N & _ & _ & _ & _ & Hn).
    by destruct (iteration state >=? N).
Qed.

(** A run that returns went through the synthesizer exactly once. *)
Lemma synthesizer_once limit n state w final w' :
  invoke_from self err limit n state w = (Return final, w') →
  n ≠ END →
  passes SYNTHESIZER (nodes_of (trace_from self limit n state w)) = 1%nat.
Proof.
  revert n state w. induction limit as [|limit IH]; intros n state w Hrun Hn.
  - by destruct n.
  - rewrite invoke_from_S in Hrun by done. rewrite trace_from_S by done.
    destruct (step self n state w) as [[[n1 state1]|e] w1] eqn:Hs; [| done].
    rewrite nodes_of_cons, passes_cons.
    destruct (decide (n = SYNTHESIZER)) as [->|Hsy].
    + apply step_SYNTHESIZER_inv in Hs as (-> & _).
      by rewrite trace_from_END, passes_single.
    + apply IH; [done |]. intros ->. apply step_into_END in Hs. tauto.
Qed.

(** With the counter at the bound, no path from the tools node, the
    synthesizer or the end leads to the researcher. *)
Lemma no_late_research N limit n state w :
  n = TOOLS ∨ n = SYNTHESIZER ∨ n = END →
  max_iterations state = Some N →
  N ≤ iteration state →
  late_research N (trace_from self limit n state w) = [].
Proof.
  intros Hn. assert (n ≠ RESEARCHER) as Hnr by (by destruct Hn as [->|[->| ->]]).
  unfold late_research.
  revert n state w Hn Hnr.
  induction limit as [|limit IH]; intros n state w Hn Hnr Hb Hle.
  - rewrite trace_from_O, filter_cons_False; [done |]. simpl. tauto.
  - destruct (decide (n = END)) as [->|Hne].
    { rewrite trace_from_END, filter_cons_False; [done |]. simpl. tauto. }
    rewrite trace_from_S by done. rewrite filter_cons_False by (simpl; tauto).
    destruct (step self n state w) as [[[n1 state1]|e] w1] eqn:Hs; [| done].
    destruct Hn as [-> | [-> | ->]]; [| | done].
    + apply step_TOOLS_inv in Hs as (m & outputs & N' & _ & _ & HN' & -> & ->).
      assert (N' = N) as -> by congruence.
      destruct (iteration state >=? N) eqn:Hge; [| lia]. by apply IH; auto.
    + apply step_SYNTHESIZER_inv in Hs as (-> & r & _ & ->). by apply IH; auto.
Qed.
End Research_facts.

(** * The claims *)

(** C1. For a run started with a bound [N] between 1 and 10, in every
    reachable configuration the counter [iteration] is at most [N]; and
    when the counter has reached [N], the continuation decision answers
    ["synthesizer"], and the tools node does return and hands over to the
    synthesizer (not to the researcher or the planner). *)
Theorem iteration_never_exceeds_bound `{External} (self : ResearchAssistant)
    (query : string) (N : Z) (w0 : world) (n : node) (state : ResearchState) (w : world) :
  1 ≤ N ≤ 10 →
  reachable self query (Some N) w0 n state w →
  iteration state ≤ N ∧
  (N ≤ iteration state → _should_continue_research state = Return "synthesizer") ∧
  (n = TOOLS → N ≤ iteration state →
   ∃ state' w', step self TOOLS state w = (Return (SYNTHESIZER, state'), w')).
Proof.
  intros HN Hr. apply reachable_invariant in Hr as [Hb Hn].
  assert (iteration state = 0 ∨ iteration state = 1) as Hi
    by (destruct n; intuition).
  split_and!.
  - lia.
  - intros Hle. unfold _should_continue_research. rewrite Hb.
    destruct (iteration state >=? N) eqn:Hge; [done | lia].
  - intros -> Hle. destruct Hn as (_ & m & Hm & _).
    destruct (step_TOOLS_returns self state w m N Hm Hb) as (state' & w' & Hs).
    destruct (iteration state >=? N) eqn:Hge; [eauto | lia].
Qed.

Lemma iteration_never_exceeds_bound_witness :
  ∃ state w,
    @trace scripted scripted_agent 25 demo_query (Some 1) tool_script !! 3%nat
      = Some (TOOLS, state, w) ∧
    iteration state ≤ 1 ∧
    (1 ≤ iteration state → _should_continue_research state = Return "synthesizer") ∧
    (TOOLS = TOOLS → 1 ≤ iteration state →
     ∃ state' w', @step scripted scripted_agent TOOLS state w
                  = (Return (SYNTHESIZER, state'), w')).
Proof.
  eexists _, _. split; [vm_compute; reflexivity |].
  apply (@iteration_never_exceeds_bound scripted scripted_agent demo_query 1 tool_script TOOLS).
  - lia.
  - apply (@trace_reachable scripted scripted_agent 25 demo_query (Some 1) tool_script 3).
    vm_compute. reflexivity.
Defined.

(** C2. For a run of [research] that returns, started with a bound [N]
    between 1 and 10: the researcher is entered at most once with the
    counter at [N] (the entry that follows the planner), no edge leads
    from the tools node back to the researcher once the counter is at
    [N], and [findings_count] is the number of synthesizer passes of the
    run, which is one. *)
Theorem no_research_after_bound_and_findings_count `{External}
    (self : ResearchAssistant) (limit : nat) (query : string) (N : Z)
    (w0 : world) (r : ResearchResult) (w' : world) :
  1 ≤ N ≤ 10 →
  research self limit query (Some N) w0 = (Return r, w') →
  (length (late_research N (trace self limit query (Some N) w0)) ≤ 1)%nat ∧
  (∀ i state w state1 w1,
     trace self limit query (Some N) w0 !! i = Some (TOOLS, state, w) →
     trace self limit query (Some N) w0 !! S i = Some (RESEARCHER, state1, w1) →
     iteration state1 < N) ∧
  findings_count r
    = Z.of_nat (passes SYNTHESIZER (nodes_of (trace self limit query (Some N) w0))) ∧
  1 ≤ findings_count r.
Proof.
  intros HN Hres. apply research_inv in Hres as (final & Hrun & _ & Hfc).
  pose proof (invoke_from_counts self _ _ _ _ _ _ Hrun) as (_ & Hf & _).
  pose proof (synthesizer_once self _ _ _ _ _ _ Hrun ltac:(done)) as Hone.
  fold (trace self limit query (Some N) w0) in Hf, Hone.
  split_and!.
  - destruct (decide (N = 1)) as [->|Hne].
    + (* the bound is 1: one entry, right after the planner *)
      unfold graph_invoke in Hrun. unfold trace.
      destruct limit as [|limit]; [done |].
      rewrite invoke_from_S in Hrun by done. rewrite trace_from_S by done.
      rewrite step_START in Hrun |- *.
      destruct limit as [|limit]; [done |].
      rewrite invoke_from_S in Hrun by done. rewrite trace_from_S by done.
      destruct (step self PLANNER _ w0) as [[[n1 state1]|e] w1] eqn:Hs; [| done].
      apply step_PLANNER_inv in Hs as (-> & rp & _ & ->).
      unfold late_research. rewrite !filter_cons_False by (simpl; intros [? _]; done).
      destruct limit as [|limit]; [done |].
      rewrite trace_from_S by done. rewrite invoke_from_S in Hrun by done.
      destruct (step self RESEARCHER _ w1) as [[[n2 state2]|e] w2] eqn:Hs2; [| done].
      apply step_RESEARCHER_inv in Hs2 as (rr & _ & -> & ->).
      rewrite filter_cons_True by (simpl; split; [done | lia]).
      pose proof (no_late_research self 1 limit
                    (match tool_calls rr with [] => SYNTHESIZER | _ :: _ => TOOLS end)
                    {| messages := [AI rr]; research_query := query; findings := [];
                       iteration := 0 + 1; max_iterations := Some 1 |} w2) as Hno.
      unfold late_research in Hno. simpl in Hno |- *. rewrite Hno; [done | | done | lia].
      destruct (tool_calls rr); auto.
    + (* the bound is above 1: the counter never gets there *)
      assert (late_research N (trace self limit query (Some N) w0) = []) as ->; [| simpl; lia].
      apply elem_of_nil_inv. intros [[n state] w] Hin.
      apply list_elem_of_filter in Hin as [[_ Hle] Hin]. simpl in Hle.
      apply list_elem_of_lookup in Hin as [i Hi].
      apply trace_reachable, reachable_invariant in Hi as [_ Hi].
      destruct n; intuition lia.
  - intros i state w state1 w1 Hi HSi.
    pose proof (trace_from_step self _ _ _ _ _ _ _ _ _ _ _ Hi HSi) as Hs.
    apply trace_reachable, reachable_invariant in Hi as [Hb _].
    apply step_TOOLS_inv in Hs as (m & outputs & N' & _ & _ & HN' & -> & Hn).
    assert (N' = N) as -> by congruence. simpl.
    destruct (iteration state >=? N) eqn:Hge; [done | lia].
  - rewrite Hfc, Hf. done.
  - rewrite Hfc, Hf, Hone. simpl. lia.
Qed.

Lemma no_research_after_bound_and_findings_count_witness :
  ∃ r w',
    (1 ≤ 1 ≤ 10) ∧
    @research scripted scripted_agent 25 demo_query (Some 1) tool_script = (Return r, w') ∧
    (length (@late_research scripted 1
               (@trace scripted scripted_agent 25 demo_query (Some 1%Z) tool_script)) ≤ 1)%nat ∧
    1 ≤ findings_count r.
Proof.
  eexists _, _. split; [lia |].
  assert (∀ A (x y : A) (P : Prop), x = y → (x = y → P) → x = y ∧ P) as Hcut by tauto.
  apply Hcut; [vm_compute; reflexivity |]. intros Hrun.
  destruct (@no_research_after_bound_and_findings_count scripted scripted_agent 25
              demo_query 1 tool_script _ _ ltac:(lia) Hrun) as (Hlate & _ & _ & Hone).
  split; [exact Hlate | exact Hone].
Defined.

Lemma passes_lookup `{External} (n : node) (tr : list (node * ResearchState * world)) :
  passes n (nodes_of tr) ≠ 0%nat → ∃ i state w, tr !! i = Some (n, state, w).
Proof.
  unfold passes. intros Hp.
  destruct (filter (λ m, m = n) (nodes_of tr)) as [|x xs] eqn:Hf; [done |].
  assert (x ∈ filter (λ m, m = n) (nodes_of tr)) as Hx by (rewrite Hf; left).
  apply list_elem_of_filter in Hx as [-> Hx].
  apply list_elem_of_fmap in Hx as ([[n' state] w] & Hn & Hc). simpl in Hn. subst n'.
  apply list_elem_of_lookup in Hc as [i Hi]. eauto.
Qed.

(** C3. In every run of [research], whether it returns, raises or runs
    out of steps: the counter changes in the planner only, where it grows
    by one; the planner is entered from the start node only, and exactly
    once (as soon as the run may take a step at all); the counter is 0 up
    to the planner and 1 in every node after it; so a run that returns,
    returns [iterations = 1]. When the bound is at least 2, the tools node
    always hands back to the researcher, and the synthesizer is entered
    only after a reply of the model that asks for no tool; a run that
    returns did enter it. *)
Theorem planner_runs_once_so_bound_is_idle `{External}
    (self : ResearchAssistant) (limit : nat) (query : string) (bound : option Z)
    (w0 : world) :
  (∀ i n state w n1 state1 w1,
     trace self limit query bound w0 !! i = Some (n, state, w) →
     trace self limit query bound w0 !! S i = Some (n1, state1, w1) →
     iteration state1 = (if decide (n = PLANNER) then iteration state + 1 else iteration state) ∧
     (n1 = PLANNER → n = START)) ∧
  passes PLANNER (nodes_of (trace self limit query bound w0))
    = (if decide (limit = 0%nat) then 0%nat else 1%nat) ∧
  (∀ i n state w,
     trace self limit query bound w0 !! i = Some (n, state, w) →
     iteration state = match n with START | PLANNER => 0 | _ => 1 end) ∧
  (∀ r w', research self limit query bound w0 = (Return r, w') → iterations r = 1) ∧
  (∀ N, bound = Some N → 2 ≤ N →
     (∀ i state w,
        trace self limit query bound w0 !! i = Some (TOOLS, state, w) →
        ∃ state1 w1, step self TOOLS state w = (Return (RESEARCHER, state1), w1)) ∧
     (∀ i state w,
        trace self limit query bound w0 !! i = Some (SYNTHESIZER, state, w) →
        ∃ m, last (messages state) = Some (AI m) ∧ tool_calls m = []) ∧
     (∀ r w',
        research self limit query bound w0 = (Return r, w') →
        ∃ i state w, trace self limit query bound w0 !! i = Some (SYNTHESIZER, state, w))).
Proof.
  split_and!.
  - intros i n state w n1 state1 w1 H1 H2.
    pose proof (trace_from_step self _ _ _ _ _ _ _ _ _ _ _ H1 H2) as Hs. split.
    + by eapply step_iteration.
    + intros ->. by eapply step_into_PLANNER.
  - unfold trace. destruct limit as [|limit].
    { rewrite trace_from_O. by rewrite passes_single. }
    rewrite trace_from_S, step_START by done.
    rewrite nodes_of_cons, passes_cons. case_decide; [done |].
    destruct limit as [|limit].
    { rewrite trace_from_O. unfold nodes_of. simpl. rewrite passes_cons.
      by case_decide. }
    rewrite trace_from_S by done. rewrite nodes_of_cons, passes_cons.
    case_decide; [| done].
    destruct (step self PLANNER _ w0) as [[[n1 state1]|e] w1] eqn:Hs; [| done].
    apply step_PLANNER_inv in Hs as (-> & _).
    by rewrite no_planner_after.
  - intros i n state w Hi.
    apply trace_reachable, reachable_invariant in Hi as (_ & Hn).
    destruct n; simpl in Hn; tauto.
  - intros r w' Hres. apply research_inv in Hres as (final & Hrun & Hit & _).
    pose proof (invoke_from_counts self _ _ _ _ _ _ Hrun) as (_ & _ & Hi).
    pose proof (planner_once self _ _ _ _ _ _ Hrun) as Hone.
    fold (trace self limit query bound w0) in Hi.
    rewrite Hit, Hi, Hone. done.
  - intros N -> HN. split_and!.
    + intros i state w Hi'.
      apply trace_reachable, reachable_invariant in Hi' as (Hb & Hone' & m & Hm & _).
      destruct (step_TOOLS_returns self state w m N Hm Hb) as (state1 & w1 & Hs).
      destruct (iteration state >=? N) eqn:Hge; [lia | eauto].
    + intros i state w Hi'.
      apply trace_reachable, reachable_invariant in Hi' as (_ & _ & [Hm | (N' & HN' & Hle)]).
      * done.
      * injection HN' as <-. lia.
    + intros r w' Hres. apply research_inv in Hres as (final & Hrun & _).
      pose proof (synthesizer_once self _ _ _ _ _ _ Hrun ltac:(done)) as Hsyn.
      fold (trace self limit query (Some N) w0) in Hsyn.
      apply passes_lookup. by rewrite Hsyn.
Qed.

Lemma planner_runs_once_so_bound_is_idle_witness :
  passes PLANNER (nodes_of (@trace scripted scripted_agent 25 demo_query (Some 3) tool_script))
    = 1%nat ∧
  nodes_of (@trace scripted scripted_agent 25 demo_query (Some 3) tool_script)
    = [START; PLANNER; RESEARCHER; TOOLS; RESEARCHER; TOOLS; RESEARCHER; SYNTHESIZER; END] ∧
  ∃ r w',
    @research scripted scripted_agent 25 demo_query (Some 3) tool_script = (Return r, w') ∧
    iterations r = 1.
Proof.
  destruct (@planner_runs_once_so_bound_is_idle scripted scripted_agent 25
              demo_query (Some 3) tool_script) as (_ & Hp & _ & Hret & _).
  split; [exact Hp |]. split; [vm_compute; reflexivity |].
  eexists _, _.
  assert (∀ A (x y : A) (P : Prop), x = y → (x = y → P) → x = y ∧ P) as Hcut by tauto.
  apply Hcut; [vm_compute; reflexivity |]. intros Hrun.
  exact (Hret _ _ Hrun).
Defined.

(** ** Request validation *)

Lemma str_field_Some lo hi v :
  is_Some (str_field lo hi v) ↔
  ∃ s, v = Some s ∧
       from_option (λ n, (n ≤ String.length s)%nat) True lo ∧
       from_option (λ n, (String.length s ≤ n)%nat) True hi.
Proof.
  unfold str_field. destruct v as [s|].
  - destruct lo as [lo|], hi as [hi|]; simpl;
      repeat match goal with
             | |- context [(?a <=? ?b)%nat] => destruct (Nat.leb_spec a b)
             end; simpl; split;
      try (intros _; exists s; split_and!; done || lia);
      try (intros [? (? & ? & ?)]; simplify_eq; done || lia);
      try (intros [? ?]; done).
  - split; [by intros [? ?] | by intros (? & ? & _)].
Qed.

Lemma optional_int_field_Some v :
  v ≠ Null →
  is_Some (optional_int_field 3 1 10 v) ↔ max_iterations_ok v.
Proof.
  intros Hv. unfold max_iterations_ok.
  assert (∀ z, is_Some (if (1 <=? z) && (z <=? 10) then Some (Some z) else None)
               ↔ 1 ≤ z ≤ 10) as Hbounds.
  { intros z. destruct (Z.leb_spec 1 z), (Z.leb_spec z 10); simpl; split;
      try done; try lia; intros [? ?]; done. }
  destruct v as [| |z|[z|]]; simpl; [| done | | |].
  - split; [by left | done].
  - rewrite Hbounds. split; [right; by exists z |]. by intros [? | (? & [= <-] & ?)].
  - rewrite Hbounds. split; [right; by exists z |]. by intros [? | (? & [= <-] & ?)].
  - split; [by intros [? ?] | by intros [? | (? & ? & ?)]].
Qed.

Lemma optional_int_field_value v n :
  v ≠ Null →
  optional_int_field 3 1 10 v = Some n →
  n = Some (default 3 (int_reading v)) ∧ 1 ≤ default 3 (int_reading v) ≤ 10.
Proof.
  intros Hv. destruct v as [| |z|[z|]]; simpl; try done.
  - intros [= <-]. split; [done | lia].
  - destruct (Z.leb_spec 1 z), (Z.leb_spec z 10); simpl; try done.
    intros [= <-]. split; [done | lia].
  - destruct (Z.leb_spec 1 z), (Z.leb_spec z 10); simpl; try done.
    intros [= <-]. split; [done | lia].
Qed.

Lemma bind_is_Some {A B} (o : option A) (k : A → option B) :
  is_Some (o ≫= k) ↔ ∃ a, o = Some a ∧ is_Some (k a).
Proof.
  destruct o as [a|]; simpl.
  - split; [eauto | by intros (? & [= <-] & ?)].
  - split; [by intros [? ?] | by intros (? & ? & _)].
Qed.

(** C4, as the code has it, for bodies whose [max_iterations] is not
    null. [AgentInput] accepts a body exactly when its query has 5 to 1000
    characters and [max_iterations] is absent or is (or is read as) an
    integer from 1 to 10. [ResearchRequest] puts the same condition on
    [max_iterations] and asks only for a query of at least 5 characters.
    The accepted bound is 3 when the field is absent and that integer
    otherwise. A body that [ResearchRequest] rejects is answered by both
    routes with the validation failure, or with the 401 of a wrong key,
    and the endpoint function, hence [research], is not run. *)
Theorem request_validation_bounds `{External} (b : RequestBody) :
  body_max_iterations b ≠ Null →
  (is_Some (AgentInput_validate b) ↔
   ∃ q, body_query b = Some q ∧ (5 ≤ String.length q ≤ 1000)%nat ∧
        max_iterations_ok (body_max_iterations b)) ∧
  (is_Some (ResearchRequest_validate b) ↔
   ∃ q, body_query b = Some q ∧ (5 ≤ String.length q)%nat ∧
        max_iterations_ok (body_max_iterations b)) ∧
  (∀ a, AgentInput_validate b = Some a →
        in_max_iterations a = Some (default 3 (int_reading (body_max_iterations b))) ∧
        1 ≤ default 3 (int_reading (body_max_iterations b)) ≤ 10) ∧
  (∀ a, ResearchRequest_validate b = Some a →
        rq_max_iterations a = Some (default 3 (int_reading (body_max_iterations b))) ∧
        1 ≤ default 3 (int_reading (body_max_iterations b)) ≤ 10) ∧
  (ResearchRequest_validate b = None →
   ∀ research_agent limit environ x_api_key,
   ∃ answer,
     (answer = RequestValidationError ∨ answer = HTTPException 401 "Invalid API key") ∧
     conduct_research research_agent limit environ x_api_key b = ret answer ∧
     conduct_research_streaming research_agent limit environ x_api_key b = ret answer).
Proof.
  intros Hnull. split_and!.
  - unfold AgentInput_validate. rewrite bind_is_Some. split.
    + intros (q & Hq & Hn). apply bind_is_Some in Hn as (n & Hn & _).
      assert (is_Some (str_field (Some 5%nat) (Some 1000%nat) (body_query b))) as Hq'
        by (by rewrite Hq).
      apply str_field_Some in Hq' as (s & Hs & Hlo & Hhi). simpl in Hlo, Hhi.
      exists s. split_and!; [done | lia | lia |].
      apply optional_int_field_Some; [done |]. by rewrite Hn.
    + intros (q & Hq & Hlen & Hok).
      assert (is_Some (str_field (Some 5%nat) (Some 1000%nat) (body_query b))) as [s Hs].
      { apply str_field_Some. exists q. simpl. split_and!; [done | lia | lia]. }
      apply optional_int_field_Some in Hok as [n Hn]; [| done].
      exists s. split; [done |]. rewrite Hn. simpl. done.
  - unfold ResearchRequest_validate. rewrite bind_is_Some. split.
    + intros (q & Hq & Hn). apply bind_is_Some in Hn as (n & Hn & _).
      assert (is_Some (str_field (Some 5%nat) None (body_query b))) as Hq'
        by (by rewrite Hq).
      apply str_field_Some in Hq' as (s & Hs & Hlo & _). simpl in Hlo.
      exists s. split_and!; [done | lia |].
      apply optional_int_field_Some; [done |]. by rewrite Hn.
    + intros (q & Hq & Hlen & Hok).
      assert (is_Some (str_field (Some 5%nat) None (body_query b))) as [s Hs].
      { apply str_field_Some. exists q. simpl. split_and!; [done | lia | done]. }
      apply optional_int_field_Some in Hok as [n Hn]; [| done].
      exists s. split; [done |]. rewrite Hn. simpl. done.
  - intros a. unfold AgentInput_validate.
    destruct (str_field _ _ _) as [q|]; simpl; [| done].
    destruct (optional_int_field 3 1 10 (body_max_iterations b)) as [n|] eqn:Hn;
      simpl; [| done].
    intros [= <-]. simpl. by apply optional_int_field_value.
  - intros a. unfold ResearchRequest_validate.
    destruct (str_field _ _ _) as [q|]; simpl; [| done].
    destruct (optional_int_field 3 1 10 (body_max_iterations b)) as [n|] eqn:Hn;
      simpl; [| done].
    intros [= <-]. simpl. by apply optional_int_field_value.
  - intros Hrej research_agent limit environ x_api_key.
    unfold conduct_research, conduct_research_streaming, screen_request. rewrite Hrej.
    destruct x_api_key as [k|]; [| eauto].
    destruct (verify_api_key environ k) as [answer|] eqn:Hk; [| eauto].
    unfold verify_api_key in Hk. case_bool_decide; [| done].
    injection Hk as <-. eauto.
Qed.

Lemma request_validation_bounds_witness :
  body_max_iterations lax_body ≠ Null ∧
  ResearchRequest_validate lax_body
    = Some {| rq_query := demo_query; rq_max_iterations := Some 3 |} ∧
  rq_max_iterations {| rq_query := demo_query; rq_max_iterations := Some 3 |}
    = Some (default 3 (int_reading (body_max_iterations lax_body))).
Proof.
  assert (body_max_iterations lax_body ≠ Null) as Hnull by discriminate.
  assert (ResearchRequest_validate lax_body
          = Some {| rq_query := demo_query; rq_max_iterations := Some 3 |}) as Hv
    by (vm_compute; reflexivity).
  split; [exact Hnull |]. split; [exact Hv |].
  destruct (@request_validation_bounds scripted lax_body Hnull) as (_ & _ & _ & Hval & _).
  exact (proj1 (Hval _ Hv)).
Defined.

(** C4 as stated fails: [ResearchRequest] accepts a query of 1001
    characters. *)
Lemma research_request_accepts_long_query :
  ¬ (5 ≤ String.length long_query ≤ 1000)%nat ∧
  ResearchRequest_validate {| body_query := Some long_query; body_max_iterations := Int 3 |}
    = Some {| rq_query := long_query; rq_max_iterations := Some 3 |}.
Proof.
  split.
  - assert (String.length long_query = 1001%nat) as -> by (vm_compute; reflexivity). lia.
  - vm_compute. reflexivity.
Qed.

(** ** Failures of the model and of the tools *)

(** C5, as the code has it. When a node of the run calls the chat model
    and the call raises [e], the run of [research] raises [e]; the route
    [/research] then answers with status 500 and the detail
    ["Research failed: " + str(e)], without a report; the route
    [/research/stream] answers with status 200 and a stream of two events,
    the start notice and ["Error: " + str(e)], without a report and
    without the closing event. *)
Theorem model_failure_aborts_run `{External} (self : ResearchAssistant) (limit : nat)
    (environ : gmap string string) (key : string) (b : RequestBody)
    (request : ResearchRequest) (w0 : world)
    (i : nat) (n : node) (state : ResearchState) (w : world) (e : exn) (w' : world) :
  screen_request environ (Some key) b = inr request →
  trace self limit (rq_query request) (rq_max_iterations request) w0 !! i
    = Some (n, state, w) →
  (i < limit)%nat →
  calls_llm n = true →
  llm_invoke (llm_with_tools self) (llm_input n state) w = (Raise e, w') →
  research self limit (rq_query request) (rq_max_iterations request) w0 = (Raise e, w') ∧
  conduct_research (Some self) limit environ (Some key) b w0
    = (Return (HTTPException 500 ("Research failed: " +:+ str e)), w') ∧
  conduct_research_streaming (Some self) limit environ (Some key) b w0
    = (Return (StreamingResponse 200 "text/event-stream"
                 [ sse ("Starting research for: " +:+ rq_query request);
                   sse ("Error: " +:+ str e) ]), w').
Proof.
  intros Hadm Hi Hlt Hn He.
  assert (research self limit (rq_query request) (rq_max_iterations request) w0
          = (Raise e, w')) as Hres.
  { apply research_raises. eapply trace_from_raises; [exact Hi | exact Hlt |].
    by apply step_llm_raises. }
  split_and!; [done | |].
  - unfold conduct_research. rewrite Hadm. unfold conduct_research_body, try_except.
    erewrite bind_Raise by exact Hres. reflexivity.
  - unfold conduct_research_streaming. rewrite Hadm.
    unfold conduct_research_streaming_body.
    erewrite bind_Return; [reflexivity |].
    unfold generate, try_except, agent_research.
    erewrite bind_Raise by exact Hres. reflexivity.
Qed.

Lemma model_failure_aborts_run_witness :
  @screen_request ∅ (Some "your-secret-key") demo_body
    = inr {| rq_query := demo_query; rq_max_iterations := Some 3 |} ∧
  @conduct_research scripted (Some scripted_agent) 25 ∅ (Some "your-secret-key")
     demo_body quota_script
    = (Return (HTTPException 500 "Research failed: quota exceeded"), []).
Proof.
  split; [vm_compute; reflexivity |].
  destruct (@model_failure_aborts_run scripted scripted_agent 25 ∅ "your-secret-key"
              demo_body {| rq_query := demo_query; rq_max_iterations := Some 3 |}
              quota_script 1 PLANNER (initial_state demo_query (Some 3)) quota_script
              (Exception "quota exceeded") [])
    as (_ & Hsync & _).
  - vm_compute. reflexivity.
  - vm_compute. reflexivity.
  - lia.
  - reflexivity.
  - reflexivity.
  - exact Hsync.
Defined.

(** C5 as stated fails on the streaming route: the first call of the
    model raises, and the answer has status 200, not 500. *)
Lemma streaming_failure_is_not_a_500 :
  @llm_invoke scripted tt (llm_input PLANNER (initial_state demo_query (Some 3))) quota_script
    = (Raise (Exception "quota exceeded"), []) ∧
  ∃ answer,
    @conduct_research_streaming scripted (Some scripted_agent) 25 ∅
       (Some "your-secret-key") demo_body quota_script = (Return answer, []) ∧
    status_of answer = 200 ∧
    answer ≠ HTTPException 500 "Research failed: quota exceeded".
Proof.
  split; [reflexivity |].
  eexists. split; [vm_compute; reflexivity |]. split; [reflexivity | discriminate].
Qed.

(** C6. When the search or the page loader (or the splitter) raises [e],
    the tool returns the text ["Search error: " + str(e)], respectively
    ["Fetch error: " + str(e)]; no exception leaves [web_search],
    [fetch_webpage] or the tools node, which puts that text into the tool
    message and hands over to the next node. *)
Theorem tool_failure_is_a_result `{External} (self : ResearchAssistant) (arg id : string)
    (w : world) (e : exn) (w' : world) :
  (∃ s w1, web_search arg w = (Return s, w1)) ∧
  (∃ s w1, fetch_webpage arg w = (Return s, w1)) ∧
  (search_run arg w = (Raise e, w') →
   web_search arg w = (Return ("Search error: " +:+ str e), w') ∧
   run_tool_call get_tools {| tc_name := "web_search"; tc_args := arg; tc_id := id |} w
     = (Return (ToolMessage ("Search error: " +:+ str e) id), w')) ∧
  (loader_load arg w = (Raise e, w') ∨
   (∃ docs, loader_load arg w = (Return docs, w') ∧ split_documents 1000 100 docs = Raise e) →
   fetch_webpage arg w = (Return ("Fetch error: " +:+ str e), w') ∧
   run_tool_call get_tools {| tc_name := "fetch_webpage"; tc_args := arg; tc_id := id |} w
     = (Return (ToolMessage ("Fetch error: " +:+ str e) id), w')) ∧
  (∀ cs, ∃ ms w1, run_tool_calls (tools self) cs w = (Return ms, w1)) ∧
  (∀ state m N,
     last (messages state) = Some (AI m) → max_iterations state = Some N →
     ∃ n' state' w1, step self TOOLS state w = (Return (n', state'), w1)).
Proof.
  split_and!.
  - apply web_search_returns.
  - apply fetch_webpage_returns.
  - intros Hs.
    assert (web_search arg w = (Return ("Search error: " +:+ str e), w')) as Hw
      by (unfold web_search, try_except; by rewrite Hs).
    split; [done |]. unfold run_tool_call. simpl.
    erewrite bind_Return; [reflexivity |]. unfold try_except. by rewrite Hw.
  - intros Hl.
    assert (fetch_webpage arg w = (Return ("Fetch error: " +:+ str e), w')) as Hf.
    { unfold fetch_webpage, try_except. destruct Hl as [Hl | (docs & Hl & Hsp)].
      - by erewrite bind_Raise by exact Hl.
      - erewrite bind_Return by exact Hl. unfold lift. rewrite Hsp.
        by erewrite bind_Raise by reflexivity. }
    split; [done |]. unfold run_tool_call. simpl.
    erewrite bind_Return; [reflexivity |]. unfold try_except. by rewrite Hf.
  - intros cs. apply run_tool_calls_returns.
  - intros state m N Hm HN.
    destruct (step_TOOLS_returns self state w m N Hm HN) as (state' & w1 & Hs). eauto.
Qed.

Lemma tool_failure_is_a_result_witness :
  @search_run scripted "recent AI" [] = (Raise (Exception "connection timed out"), []) ∧
  @web_search scripted "recent AI" [] = (Return "Search error: connection timed out", []).
Proof.
  split; [reflexivity |].
  destruct (@tool_failure_is_a_result scripted scripted_agent "recent AI" "call_1" []
              (Exception "connection timed out") []) as (_ & _ & Hs & _).
  exact (proj1 (Hs eq_refl)).
Defined.

(** ** Tool results and findings *)

(** C7. The function [allow_empty_result] does what the claim says: it
    turns [None] into the empty string and returns a string or a dict
    unchanged. But the class statement that installs it calls
    [field_validator("result", pre=True)], and [field_validator] has no
    keyword [pre]: the statement raises, the class does not exist, and no
    [ToolCallResult] is built, whatever [result] is. *)
Theorem tool_call_result_class_is_rejected (name : string) (ok : bool) (v : pyval) :
  allow_empty_result PyNone = PyStr "" ∧
  (∀ s, allow_empty_result (PyStr s) = PyStr s) ∧
  (∀ d, allow_empty_result (PyDict d) = PyDict d) ∧
  ToolCallResult_class
    = Raise (Exception "field_validator() got an unexpected keyword argument 'pre'") ∧
  ToolCallResult_new name ok v
    = Raise (Exception "field_validator() got an unexpected keyword argument 'pre'") ∧
  ToolCallResult_new "web_search" true PyNone
    ≠ Return {| tool_name := "web_search"; success := true; result_value := PyStr "" |}.
Proof. split_and!; try reflexivity. discriminate. Qed.

(** C8. [summarize_findings] joins, with ["\n---\n"] between them, the
    distinct elements of its input, each once: the joined list has no
    duplicate, has the elements of the input, and is a permutation of the
    input with its duplicates removed. The order is not fixed: two
    lawful orders of a set give two different results on one input. *)
Theorem summarize_findings_joins_distinct `{External} (findings : list string) :
  (∃ unique,
     summarize_findings findings = join (nl +:+ "---" +:+ nl) unique ∧
     NoDup unique ∧
     (∀ x, x ∈ unique ↔ x ∈ findings) ∧
     unique ≡ₚ remove_dups findings) ∧
  @summarize_findings scripted ["b"; "a"; "b"] ≠ @summarize_findings scripted_rev ["b"; "a"; "b"].
Proof.
  split.
  - exists (set_list findings). split_and!.
    + reflexivity.
    + apply set_list_NoDup.
    + apply set_list_elem.
    + apply NoDup_Permutation.
      * apply set_list_NoDup.
      * apply NoDup_remove_dups.
      * intros x. rewrite set_list_elem, elem_of_remove_dups. done.
  - vm_compute. discriminate.
Qed.

(** ** The streaming route *)

Lemma sse_error_is_not_done (s : string) : sse ("Error: " +:+ s) ≠ sse "[DONE]".
Proof. unfold sse. simpl. discriminate. Qed.

Lemma split_lines_app (a b : string) :
  one_line a = true → split_lines (a +:+ nl +:+ b) = a :: split_lines b.
Proof.
  induction a as [|c a IH]; intros Ha.
  - reflexivity.
  - simpl in Ha. apply andb_true_iff in Ha as [Hc Ha].
    apply negb_true_iff in Hc.
    change (String c a +:+ nl +:+ b) with (String c (a +:+ nl +:+ b)).
    simpl split_lines. rewrite Hc, (IH Ha). reflexivity.
Qed.

Lemma append_assoc (a b c : string) : (a +:+ b) +:+ c = a +:+ (b +:+ c).
Proof.
  induction a as [|x a IH]; [done |].
  change (String x ((a +:+ b) +:+ c) = String x (a +:+ (b +:+ c))). by rewrite IH.
Qed.

Lemma one_line_app (a b : string) :
  one_line (a +:+ b) = one_line a && one_line b.
Proof.
  induction a as [|c a IH]; [done |].
  change (one_line (String c (a +:+ b)) = one_line (String c a) && one_line b).
  simpl one_line. rewrite IH. by rewrite andb_assoc.
Qed.

(** An event whose text has no line feed contributes the line
    ["data: " + text] to the body. *)
Lemma stream_lines_cons (text : string) (chunks : list string) :
  one_line text = true →
  stream_lines (sse text :: chunks) = ("data: " +:+ text) :: stream_lines chunks.
Proof.
  intros Ht. unfold stream_lines, stream_text. simpl foldr.
  set (rest := foldr String.append "" chunks).
  assert (sse text +:+ rest = ("data: " +:+ text) +:+ nl +:+ ("" +:+ nl +:+ rest)) as ->.
  { unfold sse. rewrite !append_assoc. reflexivity. }
  rewrite split_lines_app by (rewrite one_line_app; by rewrite Ht).
  rewrite split_lines_app by done.
  rewrite filter_cons_True by (simpl; discriminate).
  rewrite filter_cons_False by (intros Hne; by apply Hne).
  reflexivity.
Qed.

Lemma stream_lines_nil : stream_lines [] = [].
Proof. reflexivity. Qed.

(** C9, as the code has it. For a request that passes the key and body
    checks the streaming route answers with status 200 and a stream of
    events ["data: " + text + "\n\n"]. When [research] returns, the
    events are the start notice, the report and the closing
    ["data: [DONE]"]. When [research] raises [e], they are the start
    notice and ["data: Error: " + str(e)], and the stream does not end
    with the closing event. When the texts of the events (the query and
    the report, or the query and [str(e)]) have no line feed, the
    non-empty lines of the stream are these events' lines, each of the
    form [data: <text>]. *)
Theorem stream_events `{External} (research_agent : option ResearchAssistant)
    (limit : nat) (environ : gmap string string) (key : string) (b : RequestBody)
    (request : ResearchRequest) (w0 : world) :
  screen_request environ (Some key) b = inr request →
  ∃ chunks w',
    conduct_research_streaming research_agent limit environ (Some key) b w0
      = (Return (StreamingResponse 200 "text/event-stream" chunks), w') ∧
    (∀ result w1,
       agent_research research_agent limit request w0 = (Return result, w1) →
       w' = w1 ∧
       chunks = [ sse ("Starting research for: " +:+ rq_query request);
                  sse (report result); sse "[DONE]" ] ∧
       last chunks = Some (sse "[DONE]") ∧
       (one_line (rq_query request) = true → one_line (report result) = true →
        stream_lines chunks
          = [ "data: Starting research for: " +:+ rq_query request;
              "data: " +:+ report result; "data: [DONE]" ] ∧
        Forall data_line (stream_lines chunks))) ∧
    (∀ e w1,
       agent_research research_agent limit request w0 = (Raise e, w1) →
       w' = w1 ∧
       chunks = [ sse ("Starting research for: " +:+ rq_query request);
                  sse ("Error: " +:+ str e) ] ∧
       last chunks ≠ Some (sse "[DONE]") ∧
       (one_line (rq_query request) = true → one_line (str e) = true →
        stream_lines chunks
          = [ "data: Starting research for: " +:+ rq_query request;
              "data: Error: " +:+ str e ] ∧
        Forall data_line (stream_lines chunks))).
Proof.
  intros Hadm. unfold conduct_research_streaming. rewrite Hadm.
  unfold conduct_research_streaming_body.
  destruct (agent_research research_agent limit request w0) as [[result|e] w1] eqn:Hres.
  - eexists _, w1. split_and!.
    + erewrite bind_Return; [reflexivity |].
      unfold generate, try_except. erewrite bind_Return by exact Hres. reflexivity.
    + intros ? ? [= <- <-]. split_and!; [done | done | done |].
      intros Hq Hr.
      assert (stream_lines
                [ sse ("Starting research for: " +:+ rq_query request);
                  sse (report result); sse "[DONE]" ]
              = [ "data: Starting research for: " +:+ rq_query request;
                  "data: " +:+ report result; "data: [DONE]" ]) as Hlines.
      { rewrite stream_lines_cons by (rewrite one_line_app; by rewrite Hq).
        rewrite stream_lines_cons by done.
        rewrite stream_lines_cons by done.
        reflexivity. }
      split; [exact Hlines |]. rewrite Hlines.
      repeat constructor; unfold data_line; eauto.
    + intros ? ? [=].
  - eexists _, w1. split_and!.
    + erewrite bind_Return; [reflexivity |].
      unfold generate, try_except. erewrite bind_Raise by exact Hres. reflexivity.
    + intros ? ? [=].
    + intros ? ? [= <- <-]. split_and!; [done | done | |].
      * intros Hd. apply (sse_error_is_not_done (str e)). simpl in Hd. congruence.
      * intros Hq He.
        assert (stream_lines
                  [ sse ("Starting research for: " +:+ rq_query request);
                    sse ("Error: " +:+ str e) ]
                = [ "data: Starting research for: " +:+ rq_query request;
                    "data: Error: " +:+ str e ]) as Hlines.
        { rewrite stream_lines_cons by (rewrite one_line_app; by rewrite Hq).
          rewrite stream_lines_cons by (rewrite one_line_app; by rewrite He).
          reflexivity. }
        split; [exact Hlines |]. rewrite Hlines.
        repeat constructor; unfold data_line; eauto.
Qed.

Lemma stream_events_witness :
  @screen_request ∅ (Some "your-secret-key") demo_body
    = inr {| rq_query := demo_query; rq_max_iterations := Some 3 |} ∧
  ∃ chunks w',
    @conduct_research_streaming scripted (Some scripted_agent) 25 ∅
       (Some "your-secret-key") demo_body tool_script
      = (Return (StreamingResponse 200 "text/event-stream" chunks), w') ∧
    stream_lines chunks
      = [ "data: Starting research for: What are recent advances in AI?";
          "data: REPORT"; "data: [DONE]" ].
Proof.
  assert (@screen_request ∅ (Some "your-secret-key") demo_body
          = inr {| rq_query := demo_query; rq_max_iterations := Some 3 |}) as Hscreen
    by (vm_compute; reflexivity).
  split; [exact Hscreen |].
  destruct (@stream_events scripted (Some scripted_agent) 25 ∅ "your-secret-key"
              demo_body {| rq_query := demo_query; rq_max_iterations := Some 3 |}
              tool_script Hscreen) as (chunks & w' & Hresp & Hret & _).
  exists chunks, w'. split; [exact Hresp |].
  assert (@agent_research scripted (Some scripted_agent) 25
            {| rq_query := demo_query; rq_max_iterations := Some 3 |} tool_script
          = (Return {| res_query := demo_query; report := "REPORT";
                       iterations := 1; findings_count := 1 |}, [])) as Hrun
    by (vm_compute; reflexivity).
  destruct (Hret _ _ Hrun) as (_ & _ & _ & Hlines).
  destruct (Hlines eq_refl eq_refl) as [Heq _]. exact Heq.
Defined.

(** C9 as stated fails, in two ways. When the model raises, the last
    event of the stream is the error event, not the closing one. And a
    report of two lines puts its second line into the stream as it is,
    without [data: ] in front. *)
Lemma failed_stream_has_no_done :
  (∃ chunks,
     @conduct_research_streaming scripted (Some scripted_agent) 25 ∅
        (Some "your-secret-key") demo_body quota_script
       = (Return (StreamingResponse 200 "text/event-stream" chunks), []) ∧
     last chunks = Some (sse "Error: quota exceeded") ∧
     last chunks ≠ Some (sse "[DONE]") ∧
     last (stream_lines chunks) = Some "data: Error: quota exceeded") ∧
  (∃ chunks,
     @conduct_research_streaming scripted (Some scripted_agent) 25 ∅
        (Some "your-secret-key") demo_body two_line_script
       = (Return (StreamingResponse 200 "text/event-stream" chunks), []) ∧
     stream_lines chunks
       = [ "data: Starting research for: What are recent advances in AI?";
           "data: Findings"; "Sources: none"; "data: [DONE]" ] ∧
     ¬ data_line "Sources: none").
Proof.
  split.
  - eexists. split; [vm_compute; reflexivity |]. split; [reflexivity |].
    split; [vm_compute; discriminate |]. vm_compute. reflexivity.
  - eexists. split; [vm_compute; reflexivity |]. split; [vm_compute; reflexivity |].
    intros [text Ht]. simpl in Ht. discriminate Ht.
Qed.

(** ** The service key *)

(** C10. With [API_KEY] absent from the environment, [verify_api_key]
    returns the header value exactly when it is ["your-secret-key"] and
    raises the 401 for every other value; the expected key is then that
    literal; and what [lifespan] does at startup is the same whether
    [API_KEY] is absent or set. *)
Theorem missing_key_enables_fallback `{External} (environ : gmap string string)
    (x_api_key : string) :
  environ !! "API_KEY" = None →
  getenv_default environ "API_KEY" "your-secret-key" = "your-secret-key" ∧
  (verify_api_key environ x_api_key = inr x_api_key ↔ x_api_key = "your-secret-key") ∧
  (x_api_key ≠ "your-secret-key" →
   verify_api_key environ x_api_key = inl (HTTPException 401 "Invalid API key")) ∧
  (∀ k, lifespan (<["API_KEY" := k]> environ) = lifespan environ).
Proof.
  intros Henv.
  assert (getenv_default environ "API_KEY" "your-secret-key" = "your-secret-key") as Hexp
    by (unfold getenv_default; by rewrite Henv).
  split_and!.
  - done.
  - unfold verify_api_key. rewrite Hexp. case_bool_decide; split; done.
  - intros Hne. unfold verify_api_key. rewrite Hexp. by case_bool_decide.
  - intros k. unfold lifespan, ResearchAssistant_init, getenv.
    by rewrite lookup_insert_ne.
Qed.

Lemma missing_key_enables_fallback_witness :
  (∅ : gmap string string) !! "API_KEY" = None ∧
  verify_api_key ∅ "guess" = inl (HTTPException 401 "Invalid API key") ∧
  (verify_api_key ∅ "your-secret-key" = inr "your-secret-key"
   ↔ "your-secret-key" = "your-secret-key").
Proof.
  assert ((∅ : gmap string string) !! "API_KEY" = None) as Hnone by reflexivity.
  split; [exact Hnone |].
  destruct (@missing_key_enables_fallback scripted ∅ "guess" Hnone) as (_ & _ & Hbad & _).
  destruct (@missing_key_enables_fallback scripted ∅ "your-secret-key" Hnone)
    as (_ & Hgood & _).
  split; [apply Hbad; discriminate | exact Hgood].
Defined.


(** * Further properties *)

(** ** Findings and report *)

Section Findings_facts.
Context `{External} {err : exn}.
Variable self : ResearchAssistant.

(** Before [END] the findings are empty; at [END] the state holds the
    reply of the synthesizer as its only message and its text as its only
    finding. *)
Lemma reachable_findings query bound w0 n state w :
  reachable self query bound w0 n state w →
  if decide (n = END)
  then ∃ m, messages state = [AI m] ∧ findings state = [content m]
  else findings state = [].
Proof.
  induction 1 as [|n state w n' state' w' _ IH Hs]; [done |].
  destruct n; simpl in IH.
  - by injection Hs as <- <- <-.
  - apply step_PLANNER_inv in Hs as (-> & r & _ & ->). done.
  - apply step_RESEARCHER_inv in Hs as (r & _ & -> & ->). by destruct (tool_calls r).
  - apply step_TOOLS_inv in Hs as (m & outputs & N & _ & _ & _ & -> & ->).
    by destruct (iteration state >=? N).
  - apply step_SYNTHESIZER_inv in Hs as (-> & r & _ & ->). simpl.
    exists r. by rewrite IH.
  - by injection Hs as <- <- <-.
Qed.

Lemma research_inv_report limit query bound w r w' :
  research self limit query bound w = (Return r, w') →
  ∃ final m,
    graph_invoke self limit (initial_state query bound) w = (Return final, w') ∧
    last (messages final) = Some m ∧
    r = {| res_query := query;
           report := message_content m;
           iterations := iteration final;
           findings_count := Z.of_nat (length (findings final)) |}.
Proof.
  intros Hr. apply bind_inv_Return in Hr as (final & w1 & Hrun & Hr).
  apply bind_inv_Return in Hr as (m & w2 & Hm & Hr).
  unfold lift, last_message in Hm.
  destruct (last (messages final)) as [m'|] eqn:Hl; [| done].
  injection Hm as <- <-. injection Hr as <- <-. eauto.
Qed.
End Findings_facts.

(** X1. Whenever the synthesizer runs, the findings are still empty, so
    what it sends to the model is fixed: the system prompt and the
    synthesis prompt with ["Research in progress"]; neither the query nor
    the tool results reach it. Its step then stores the reply as the only
    message and the only finding. *)
Theorem synthesizer_input_is_fixed `{External} (self : ResearchAssistant)
    (query : string) (bound : option Z) (w0 : world) (state : ResearchState) (w : world) :
  reachable self query bound w0 SYNTHESIZER state w →
  findings state = [] ∧
  synthesis_prompt (findings state) = synthesis_prompt [] ∧
  (∀ r w',
     llm_invoke (llm_with_tools self)
       [System synthesizer_prompt; Human (synthesis_prompt [])] w = (Return r, w') →
     ∃ state',
       step self SYNTHESIZER state w = (Return (END, state'), w') ∧
       messages state' = [AI r] ∧ findings state' = [content r]) ∧
  (∀ e w',
     llm_invoke (llm_with_tools self)
       [System synthesizer_prompt; Human (synthesis_prompt [])] w = (Raise e, w') →
     step self SYNTHESIZER state w = (Raise e, w')).
Proof.
  intros Hr. apply reachable_findings in Hr. simpl in Hr.
  split_and!; [done | by rewrite Hr | |].
  - intros r w' Hllm.
    exists {| messages := [AI r]; research_query := research_query state;
              findings := [content r]; iteration := iteration state;
              max_iterations := max_iterations state |}.
    split_and!; [| reflexivity | reflexivity].
    assert (synthesizer (llm_with_tools self) state w
            = (Return {| upd_messages := Some [AI r];
                         upd_findings := Some (findings state ++ [content r]);
                         upd_iteration := None |}, w')) as Hsyn.
    { unfold synthesizer. rewrite Hr. erewrite bind_Return by exact Hllm. reflexivity. }
    simpl. erewrite bind_Return by exact Hsyn.
    unfold ret, apply_update. simpl. by rewrite Hr.
  - intros e w' Hllm. apply step_llm_raises; [done |]. simpl. by rewrite Hr.
Qed.

Lemma synthesizer_input_is_fixed_witness :
  ∃ state w,
    @trace scripted scripted_agent 25 demo_query (Some 3) tool_script !! 7%nat
      = Some (SYNTHESIZER, state, w) ∧
    findings state = [] ∧
    synthesis_prompt (findings state) = synthesis_prompt [].
Proof.
  eexists _, _. split; [vm_compute; reflexivity |].
  destruct (@synthesizer_input_is_fixed scripted scripted_agent demo_query (Some 3)
              tool_script
              {| messages := [AI {| content := "enough material"; tool_calls := [] |}];
                 research_query := demo_query; findings := []; iteration := 1;
                 max_iterations := Some 3 |}
              [plain_reply "REPORT"]) as (Hf & Hp & _).
  - apply (@trace_reachable scripted scripted_agent 25 demo_query (Some 3) tool_script 7).
    vm_compute. reflexivity.
  - split; [exact Hf | exact Hp].
Defined.

(** X2. A run of [research] that returns gives back the query it was
    given, [iterations = 1] and [findings_count = 1], and its report is the
    text of the last message of the final state, which is the reply of the
    synthesizer and the only finding. *)
Theorem report_is_the_only_finding `{External} (self : ResearchAssistant)
    (limit : nat) (query : string) (bound : option Z) (w0 : world)
    (r : ResearchResult) (w' : world) :
  research self limit query bound w0 = (Return r, w') →
  ∃ final m,
    graph_invoke self limit (initial_state query bound) w0 = (Return final, w') ∧
    messages final = [AI m] ∧
    findings final = [report r] ∧
    r = {| res_query := query; report := content m; iterations := 1; findings_count := 1 |}.
Proof.
  intros Hres.
  apply research_inv_report in Hres as (final & m0 & Hrun & Hl & ->).
  pose proof (invoke_from_counts self _ _ _ _ _ _ Hrun) as (Hlast & _ & Hit).
  fold (trace self limit query bound w0) in Hit.
  rewrite (planner_once self _ _ _ _ _ _ Hrun) in Hit. simpl in Hit.
  rewrite last_lookup in Hlast.
  apply (trace_from_reachable self query bound w0), reachable_findings in Hlast;
    [| apply reachable_start].
  simpl in Hlast. destruct Hlast as (m & Hm & Hf).
  rewrite Hm in Hl. injection Hl as <-.
  exists final, m. simpl in Hit |- *. rewrite Hf, Hit. done.
Qed.

Lemma report_is_the_only_finding_witness :
  ∃ r w',
    @research scripted scripted_agent 25 demo_query (Some 3) tool_script = (Return r, w') ∧
    res_query r = demo_query ∧ iterations r = 1 ∧ findings_count r = 1.
Proof.
  eexists _, _.
  assert (∀ A (x y : A) (P : Prop), x = y → (x = y → P) → x = y ∧ P) as Hcut by tauto.
  apply Hcut; [vm_compute; reflexivity |]. intros Hrun.
  destruct (@report_is_the_only_finding scripted scripted_agent 25 demo_query (Some 3)
              tool_script _ _ Hrun) as (final & m & _ & _ & _ & Hr).
  rewrite Hr. simpl. split_and!; reflexivity.
Defined.

(** ** The shape of a run *)

Section Shape_facts.
Context `{External} {err : exn}.
Variable self : ResearchAssistant.

Lemma step_PLANNER_returns state w r w' :
  llm_invoke (llm_with_tools self) (llm_input PLANNER state) w = (Return r, w') →
  step self PLANNER state w
    = (Return (RESEARCHER,
               {| messages := [AI r]; research_query := research_query state;
                  findings := findings state; iteration := iteration state + 1;
                  max_iterations := max_iterations state |}), w').
Proof.
  intros Hllm.
  assert (planner (llm_with_tools self) state w
          = (Return {| upd_messages := Some [AI r]; upd_findings := None;
                       upd_iteration := Some (iteration state + 1) |}, w')) as Hpl.
  { unfold planner. erewrite bind_Return by exact Hllm. reflexivity. }
  simpl. erewrite bind_Return by exact Hpl. reflexivity.
Qed.

Lemma step_RESEARCHER_returns state w r w' :
  llm_invoke (llm_with_tools self) (llm_input RESEARCHER state) w = (Return r, w') →
  step self RESEARCHER state w
    = (Return (match tool_calls r with [] => SYNTHESIZER | _ :: _ => TOOLS end,
               {| messages := [AI r]; research_query := research_query state;
                  findings := findings state; iteration := iteration state;
                  max_iterations := max_iterations state |}), w').
Proof.
  intros Hllm.
  assert (researcher (llm_with_tools self) state w
          = (Return {| upd_messages := Some [AI r]; upd_findings := None;
                       upd_iteration := None |}, w')) as Hres.
  { unfold researcher. erewrite bind_Return by exact Hllm. reflexivity. }
  simpl. erewrite bind_Return by exact Hres.
  unfold mbind, M_bind, bind, lift, tools_condition, apply_update, ret. simpl.
  by destruct (tool_calls r).
Qed.

Lemma step_SYNTHESIZER_returns state w r w' :
  llm_invoke (llm_with_tools self) (llm_input SYNTHESIZER state) w = (Return r, w') →
  step self SYNTHESIZER state w
    = (Return (END,
               {| messages := [AI r]; research_query := research_query state;
                  findings := findings state ++ [content r]; iteration := iteration state;
                  max_iterations := max_iterations state |}), w').
Proof.
  intros Hllm.
  assert (synthesizer (llm_with_tools self) state w
          = (Return {| upd_messages := Some [AI r];
                       upd_findings := Some (findings state ++ [content r]);
                       upd_iteration := None |}, w')) as Hsyn.
  { unfold synthesizer. erewrite bind_Return by exact Hllm. reflexivity. }
  simpl. erewrite bind_Return by exact Hsyn. reflexivity.
Qed.

(** The tools node of a state without a bound raises. *)
Lemma step_TOOLS_none state w m :
  last (messages state) = Some (AI m) →
  max_iterations state = None →
  ∃ w', step self TOOLS state w = (Raise none_bound_error, w').
Proof.
  intros Hm HN.
  destruct (run_tool_calls_returns (tools self) (tool_calls m) w) as (outputs & w' & Ho).
  exists w'. simpl. unfold ToolNode. rewrite Hm.
  unfold mbind, M_bind, bind, lift, _should_continue_research, apply_update, ret; simpl.
  unfold mbind, M_bind, bind in Ho. rewrite Ho. simpl. by rewrite HN.
Qed.

Lemma trace_from_SYNTHESIZER limit state w final w' :
  invoke_from self err limit SYNTHESIZER state w = (Return final, w') →
  nodes_of (trace_from self limit SYNTHESIZER state w) = [SYNTHESIZER; END].
Proof.
  intros Hrun. destruct limit as [|limit]; [done |].
  rewrite invoke_from_S in Hrun by done. rewrite trace_from_S by done.
  destruct (step self SYNTHESIZER state w) as [[[n1 state1]|e] w1] eqn:Hs; [| done].
  apply step_SYNTHESIZER_inv in Hs as (-> & _). by rewrite trace_from_END.
Qed.

Lemma trace_from_length limit n state w :
  (length (trace_from self limit n state w) ≤ S limit)%nat.
Proof.
  revert n state w. induction limit as [|limit IH]; intros n state w.
  - rewrite trace_from_O. simpl. lia.
  - destruct (decide (n = END)) as [->|Hn]; [rewrite trace_from_END; simpl; lia |].
    rewrite trace_from_S by done. simpl.
    destruct (step self n state w) as [[[n1 state1]|e] w1]; [| simpl; lia].
    specialize (IH n1 state1 w1). lia.
Qed.

(** Below the bound, a run that returns alternates between the
    researcher and the tools until a reply asks for no tool. *)
Lemma loop_shape N limit n state w final w' :
  invoke_from self err limit n state w = (Return final, w') →
  max_iterations state = Some N →
  iteration state < N →
  n = RESEARCHER ∨ n = TOOLS →
  ∃ k : nat,
    nodes_of (trace_from self limit n state w)
    = (if decide (n = TOOLS) then [TOOLS; RESEARCHER] else [RESEARCHER])
      ++ concat (replicate k [TOOLS; RESEARCHER]) ++ [SYNTHESIZER; END].
Proof.
  revert n state w. induction limit as [|limit IH]; intros n state w Hrun Hb Hlt Hn.
  - destruct Hn as [-> | ->]; done.
  - assert (n ≠ END) as Hne by (destruct Hn as [-> | ->]; done).
    rewrite invoke_from_S in Hrun by done. rewrite trace_from_S by done.
    destruct (step self n state w) as [[[n1 state1]|e] w1] eqn:Hs; [| done].
    rewrite nodes_of_cons. destruct Hn as [-> | ->].
    + apply step_RESEARCHER_inv in Hs as (r & _ & -> & ->).
      destruct (tool_calls r).
      * exists 0%nat. by rewrite (trace_from_SYNTHESIZER _ _ _ _ _ Hrun).
      * destruct (IH _ _ _ Hrun Hb Hlt (or_intror eq_refl)) as [k Hk].
        exists (S k). rewrite Hk. simpl. done.
    + apply step_TOOLS_inv in Hs as (m & outputs & N' & _ & _ & HN' & -> & ->).
      assert (N' = N) as -> by congruence.
      destruct (iteration state >=? N) eqn:Hge; [lia |].
      destruct (IH _ _ _ Hrun Hb Hlt (or_introl eq_refl)) as [k Hk].
      exists k. rewrite Hk. simpl. done.
Qed.

Lemma passes_app n ns1 ns2 :
  passes n (ns1 ++ ns2) = (passes n ns1 + passes n ns2)%nat.
Proof. unfold passes. by rewrite filter_app, length_app. Qed.

Lemma passes_loop n (k : nat) :
  passes n (concat (replicate k [TOOLS; RESEARCHER]))
  = (if decide (n = TOOLS) then k else if decide (n = RESEARCHER) then k else 0)%nat.
Proof.
  induction k as [|k IH]; simpl.
  - by repeat case_decide.
  - rewrite !passes_cons, IH. repeat case_decide; subst; done || lia.
Qed.

Lemma model_calls_cons n ns :
  model_calls (n :: ns) = (if calls_llm n then S (model_calls ns) else model_calls ns).
Proof. unfold model_calls. rewrite filter_cons. by destruct (calls_llm n). Qed.

Lemma model_calls_loop (k : nat) ns :
  model_calls (concat (replicate k [TOOLS; RESEARCHER]) ++ ns) = (k + model_calls ns)%nat.
Proof.
  induction k as [|k IH]; simpl; [done |].
  rewrite !model_calls_cons. simpl. rewrite IH. done.
Qed.

(** The first three configurations of a run that returns. *)
Lemma run_prefix limit query bound w0 final w' :
  graph_invoke self limit (initial_state query bound) w0 = (Return final, w') →
  ∃ limit' rp w1,
    limit = S (S limit') ∧
    llm_invoke (llm_with_tools self) (llm_input PLANNER (initial_state query bound)) w0
      = (Return rp, w1) ∧
    let state1 := {| messages := [AI rp]; research_query := query; findings := [];
                     iteration := 1; max_iterations := bound |} in
    invoke_from self (graph_recursion_error limit) limit' RESEARCHER state1 w1
      = (Return final, w') ∧
    trace self limit query bound w0
      = (START, initial_state query bound, w0) :: (PLANNER, initial_state query bound, w0)
        :: trace_from self limit' RESEARCHER state1 w1.
Proof.
  unfold graph_invoke, trace. intros Hrun.
  destruct limit as [|limit]; [done |].
  rewrite invoke_from_S in Hrun by done. rewrite trace_from_S by done.
  rewrite step_START in Hrun |- *.
  destruct limit as [|limit]; [done |].
  rewrite invoke_from_S in Hrun by done. rewrite trace_from_S by done.
  destruct (step self PLANNER _ w0) as [[[n1 state1]|e] w1] eqn:Hs; [| done].
  apply step_PLANNER_inv in Hs as (-> & rp & Hllm & ->).
  exists limit, rp, w1. simpl. split_and!; done.
Qed.
End Shape_facts.

(** X3. When the replies of the planner, of the researcher and of the
    synthesizer arrive and the researcher's reply asks for no tool, a run
    with a recursion limit of at least 4 goes through the planner, the
    researcher and the synthesizer once each, never through the tools,
    and returns the synthesizer's text as report with [iterations = 1] and
    [findings_count = 1]. The researcher is sent the planner's reply, not
    the query. *)
Theorem run_without_tools `{External} (self : ResearchAssistant) (limit : nat)
    (query : string) (bound : option Z)
    (w0 w1 w2 w3 : world) (rp rr rs : AIMessage) :
  (4 ≤ limit)%nat →
  llm_invoke (llm_with_tools self) [System planner_prompt; Human query] w0
    = (Return rp, w1) →
  llm_invoke (llm_with_tools self) [System researcher_prompt; AI rp] w1
    = (Return rr, w2) →
  tool_calls rr = [] →
  llm_invoke (llm_with_tools self)
    [System synthesizer_prompt; Human (synthesis_prompt [])] w2 = (Return rs, w3) →
  research self limit query bound w0
    = (Return {| res_query := query; report := content rs;
                 iterations := 1; findings_count := 1 |}, w3) ∧
  nodes_of (trace self limit query bound w0)
    = [START; PLANNER; RESEARCHER; SYNTHESIZER; END].
Proof.
  intros Hlim Hp Hr Htc Hs.
  destruct limit as [|[|[|[|limit]]]]; try lia.
  set (state0 := initial_state query bound).
  pose proof (step_PLANNER_returns self state0 w0 rp w1 Hp) as Hsp.
  match type of Hsp with _ = (Return (_, ?s), _) => set (state1 := s) in * end.
  pose proof (step_RESEARCHER_returns self state1 w1 rr w2 Hr) as Hsr.
  rewrite Htc in Hsr.
  match type of Hsr with _ = (Return (_, ?s), _) => set (state2 := s) in * end.
  pose proof (step_SYNTHESIZER_returns self state2 w2 rs w3 Hs) as Hss.
  match type of Hss with _ = (Return (_, ?s), _) => set (state3 := s) in * end.
  split.
  - assert (graph_invoke self (S (S (S (S limit)))) state0 w0 = (Return state3, w3)) as Hrun.
    { unfold graph_invoke.
      rewrite invoke_from_S, step_START by done.
      rewrite invoke_from_S, Hsp by done.
      rewrite invoke_from_S, Hsr by done.
      rewrite invoke_from_S, Hss by done.
      by rewrite invoke_from_END. }
    unfold research. fold state0. erewrite bind_Return by exact Hrun. reflexivity.
  - unfold trace. fold state0.
    rewrite trace_from_S, step_START by done.
    rewrite trace_from_S, Hsp by done.
    rewrite trace_from_S, Hsr by done.
    rewrite trace_from_S, Hss by done.
    by rewrite trace_from_END.
Qed.

Lemma run_without_tools_witness :
  @research scripted scripted_agent 25 demo_query (Some 3) plain_script
    = (Return {| res_query := demo_query; report := "REPORT";
                 iterations := 1; findings_count := 1 |}, []) ∧
  nodes_of (@trace scripted scripted_agent 25 demo_query (Some 3) plain_script)
    = [START; PLANNER; RESEARCHER; SYNTHESIZER; END].
Proof.
  apply (@run_without_tools scripted scripted_agent 25 demo_query (Some 3)
           plain_script [plain_reply "nothing to look up"; plain_reply "REPORT"]
           [plain_reply "REPORT"] []
           {| content := "plan"; tool_calls := [] |}
           {| content := "nothing to look up"; tool_calls := [] |}
           {| content := "REPORT"; tool_calls := [] |}).
  - lia.
  - reflexivity.
  - reflexivity.
  - reflexivity.
  - reflexivity.
Defined.

(** X4. With a bound of at most 1, a run that returns has one of two
    shapes: planner, researcher, synthesizer; or planner, researcher,
    tools, synthesizer. Either way the model is called three times and the
    tools run at most once, whatever the model asks for. *)
Theorem bound_one_run_shape `{External} (self : ResearchAssistant) (limit : nat)
    (query : string) (N : Z) (w0 : world) (r : ResearchResult) (w' : world) :
  N ≤ 1 →
  research self limit query (Some N) w0 = (Return r, w') →
  (nodes_of (trace self limit query (Some N) w0)
     = [START; PLANNER; RESEARCHER; SYNTHESIZER; END] ∨
   nodes_of (trace self limit query (Some N) w0)
     = [START; PLANNER; RESEARCHER; TOOLS; SYNTHESIZER; END]) ∧
  model_calls (nodes_of (trace self limit query (Some N) w0)) = 3%nat ∧
  (passes TOOLS (nodes_of (trace self limit query (Some N) w0)) ≤ 1)%nat.
Proof.
  intros HN Hres. apply research_inv in Hres as (final & Hrun & _).
  apply run_prefix in Hrun as (limit' & rp & w1 & -> & _ & Hrun & ->).
  rewrite !nodes_of_cons.
  assert (nodes_of (trace_from self limit' RESEARCHER
                      {| messages := [AI rp]; research_query := query; findings := [];
                         iteration := 1; max_iterations := Some N |} w1)
          = [RESEARCHER; SYNTHESIZER; END] ∨
          nodes_of (trace_from self limit' RESEARCHER
                      {| messages := [AI rp]; research_query := query; findings := [];
                         iteration := 1; max_iterations := Some N |} w1)
          = [RESEARCHER; TOOLS; SYNTHESIZER; END]) as Hshape.
  { destruct limit' as [|limit]; [done |].
    rewrite invoke_from_S in Hrun by done. rewrite trace_from_S by done.
    destruct (step self RESEARCHER _ w1) as [[[n2 state2]|e] w2] eqn:Hs; [| done].
    apply step_RESEARCHER_inv in Hs as (rr & _ & -> & ->).
    rewrite nodes_of_cons. destruct (tool_calls rr).
    - left. by rewrite (trace_from_SYNTHESIZER _ _ _ _ _ _ Hrun).
    - right. destruct limit as [|limit]; [done |].
      rewrite invoke_from_S in Hrun by done. rewrite trace_from_S by done.
      destruct (step self TOOLS _ w2) as [[[n3 state3]|e] w3] eqn:Hs; [| done].
      apply step_TOOLS_inv in Hs as (m & outputs & N' & _ & _ & HN' & -> & ->).
      simpl in HN'. injection HN' as <-.
      assert ((1 >=? N) = true) as Hge by (apply Z.geb_le; lia).
      cbn [iteration] in Hrun |- *. rewrite Hge in Hrun |- *.
      by rewrite nodes_of_cons, (trace_from_SYNTHESIZER _ _ _ _ _ _ Hrun). }
  destruct Hshape as [-> | ->]; (split_and!; [auto | reflexivity | vm_compute; lia]).
Qed.

Lemma bound_one_run_shape_witness :
  ∃ r w',
    @research scripted scripted_agent 25 demo_query (Some 1) tool_script = (Return r, w') ∧
    model_calls (nodes_of (@trace scripted scripted_agent 25 demo_query (Some 1) tool_script))
      = 3%nat.
Proof.
  eexists _, _.
  assert (∀ A (x y : A) (P : Prop), x = y → (x = y → P) → x = y ∧ P) as Hcut by tauto.
  apply Hcut; [vm_compute; reflexivity |]. intros Hrun.
  destruct (@bound_one_run_shape scripted scripted_agent 25 demo_query 1 tool_script
              _ _ ltac:(lia) Hrun) as (_ & Hcalls & _).
  exact Hcalls.
Defined.

Lemma length_loop (k : nat) :
  length (concat (replicate k [TOOLS; RESEARCHER])) = (2 * k)%nat.
Proof. induction k as [|k IH]; simpl; [done | rewrite IH; lia]. Qed.

(** X5. With a bound of at least 2, a run that returns is the planner,
    then the researcher, then some number [k] of rounds of tools and
    researcher, then the synthesizer. The model is called [k + 3] times,
    and the recursion limit is the only cap on [k]: [2 * k + 4 ≤ limit]. *)
Theorem loop_run_shape `{External} (self : ResearchAssistant) (limit : nat)
    (query : string) (N : Z) (w0 : world) (r : ResearchResult) (w' : world) :
  2 ≤ N →
  research self limit query (Some N) w0 = (Return r, w') →
  ∃ k : nat,
    nodes_of (trace self limit query (Some N) w0)
      = [START; PLANNER; RESEARCHER]
        ++ concat (replicate k [TOOLS; RESEARCHER]) ++ [SYNTHESIZER; END] ∧
    passes TOOLS (nodes_of (trace self limit query (Some N) w0)) = k ∧
    passes RESEARCHER (nodes_of (trace self limit query (Some N) w0)) = S k ∧
    model_calls (nodes_of (trace self limit query (Some N) w0)) = (k + 3)%nat ∧
    (2 * k + 4 ≤ limit)%nat.
Proof.
  intros HN Hres. apply research_inv in Hres as (final & Hrun & _).
  apply run_prefix in Hrun as (limit' & rp & w1 & -> & _ & Hrun & ->).
  destruct (loop_shape self N _ _ _ _ _ _ Hrun eq_refl ltac:(simpl; lia)
              (or_introl eq_refl)) as [k Hk].
  pose proof (trace_from_length self limit' RESEARCHER
                {| messages := [AI rp]; research_query := query; findings := [];
                   iteration := 1; max_iterations := Some N |} w1) as Hlen.
  assert (length (nodes_of (trace_from self limit' RESEARCHER
                {| messages := [AI rp]; research_query := query; findings := [];
                   iteration := 1; max_iterations := Some N |} w1))
          ≤ S limit')%nat as Hlen' by (unfold nodes_of; by rewrite length_fmap).
  rewrite !nodes_of_cons, Hk. rewrite Hk in Hlen'. simpl in Hlen' |- *.
  rewrite length_app, length_loop in Hlen'. simpl in Hlen'.
  exists k. split_and!.
  - done.
  - rewrite !passes_cons, passes_app, passes_loop, !passes_cons.
    repeat case_decide; try done; simpl; lia.
  - rewrite !passes_cons, passes_app, passes_loop, !passes_cons.
    repeat case_decide; try done; simpl; lia.
  - rewrite !model_calls_cons. simpl. rewrite model_calls_loop, !model_calls_cons. simpl.
    unfold model_calls. simpl. lia.
  - lia.
Qed.

Lemma loop_run_shape_witness :
  ∃ r w',
    @research scripted scripted_agent 25 demo_query (Some 3) tool_script = (Return r, w') ∧
    ∃ k : nat,
      passes TOOLS (nodes_of (@trace scripted scripted_agent 25 demo_query (Some 3) tool_script))
        = k ∧
      model_calls (nodes_of (@trace scripted scripted_agent 25 demo_query (Some 3) tool_script))
        = (k + 3)%nat.
Proof.
  eexists _, _.
  assert (∀ A (x y : A) (P : Prop), x = y → (x = y → P) → x = y ∧ P) as Hcut by tauto.
  apply Hcut; [vm_compute; reflexivity |]. intros Hrun.
  destruct (@loop_run_shape scripted scripted_agent 25 demo_query 3 tool_script
              _ _ ltac:(lia) Hrun) as (k & _ & Ht & _ & Hc & _).
  exists k. split; [exact Ht | exact Hc].
Defined.

(** ** Runs that do not return *)

Section Failure_facts.
Context `{External} {err : exn}.
Variable self : ResearchAssistant.

(** An exception of [research] as the two routes report it. *)
Lemma routes_on_raise limit environ header b request w0 e w' :
  screen_request environ header b = inr request →
  research self limit (rq_query request) (rq_max_iterations request) w0 = (Raise e, w') →
  conduct_research (Some self) limit environ header b w0
    = (Return (HTTPException 500 ("Research failed: " +:+ str e)), w') ∧
  conduct_research_streaming (Some self) limit environ header b w0
    = (Return (StreamingResponse 200 "text/event-stream"
                 [ sse ("Starting research for: " +:+ rq_query request);
                   sse ("Error: " +:+ str e) ]), w').
Proof.
  intros Hscr Hres. split.
  - unfold conduct_research. rewrite Hscr. unfold conduct_research_body, try_except.
    erewrite bind_Raise by exact Hres. reflexivity.
  - unfold conduct_research_streaming. rewrite Hscr.
    unfold conduct_research_streaming_body.
    erewrite bind_Return; [reflexivity |].
    unfold generate, try_except, agent_research.
    erewrite bind_Raise by exact Hres. reflexivity.
Qed.

(** Below the bound, with a model that always asks for a tool, the loop
    of researcher and tools uses up any recursion limit. *)
Lemma loop_exhausts_limit N limit n state w :
  (∀ msgs w1, ∃ r w2,
     llm_invoke (llm_with_tools self) msgs w1 = (Return r, w2) ∧ tool_calls r ≠ []) →
  max_iterations state = Some N →
  iteration state < N →
  n = RESEARCHER ∨ (n = TOOLS ∧ ∃ m, last (messages state) = Some (AI m)) →
  ∃ w', invoke_from self err limit n state w = (Raise err, w').
Proof.
  intros Hllm. revert n state w.
  induction limit as [|limit IH]; intros n state w Hb Hlt Hn.
  - exists w. destruct Hn as [-> | [-> _]]; reflexivity.
  - assert (n ≠ END) as Hne by (destruct Hn as [-> | [-> _]]; done).
    rewrite invoke_from_S by done. destruct Hn as [-> | [-> [m Hm]]].
    + destruct (Hllm (llm_input RESEARCHER state) w) as (r & w2 & Hr & Htc).
      rewrite (step_RESEARCHER_returns self _ _ _ _ Hr).
      destruct (tool_calls r) as [|c cs] eqn:Hcs; [done |].
      apply IH; [done | done |]. right. split; [done |]. exists r. done.
    + destruct (step_TOOLS_returns self state w m N Hm Hb) as (state' & w2 & Hs).
      rewrite Hs. pose proof Hs as Hs'.
      apply step_TOOLS_inv in Hs' as (_ & outputs & _ & _ & _ & _ & -> & _).
      destruct (iteration state >=? N) eqn:Hge; [lia |].
      apply IH; [done | done | by left].
Qed.
End Failure_facts.

(** X6. With a bound of at least 2 and a model that answers every call
    and always asks for a tool, [research] never returns: whatever the
    recursion limit, the run ends with the recursion error that the graph
    library raises for that limit, and [/research] answers 500 with the
    text of that error after ["Research failed: "]. *)
Theorem insistent_model_exhausts_limit `{External} (self : ResearchAssistant)
    (limit : nat) (environ : gmap string string) (header : option string)
    (b : RequestBody) (request : ResearchRequest) (N : Z) (w0 : world) :
  (∀ msgs w1, ∃ r w2,
     llm_invoke (llm_with_tools self) msgs w1 = (Return r, w2) ∧ tool_calls r ≠ []) →
  screen_request environ header b = inr request →
  rq_max_iterations request = Some N →
  2 ≤ N →
  ∃ w',
    research self limit (rq_query request) (Some N) w0
      = (Raise (graph_recursion_error limit), w') ∧
    conduct_research (Some self) limit environ header b w0
      = (Return (HTTPException 500
                   ("Research failed: " +:+ str (graph_recursion_error limit))), w').
Proof.
  intros Hllm Hscr Hb HN.
  assert (∃ w', research self limit (rq_query request) (Some N) w0
                = (Raise (graph_recursion_error limit), w')) as [w' Hres].
  { destruct limit as [|[|limit]].
    - exists w0. reflexivity.
    - exists w0. reflexivity.
    - destruct (Hllm (llm_input PLANNER (initial_state (rq_query request) (Some N))) w0)
        as (rp & w1 & Hp & _).
      destruct (loop_exhausts_limit (err := graph_recursion_error (S (S limit)))
                  self N limit RESEARCHER
                  {| messages := [AI rp]; research_query := rq_query request;
                     findings := []; iteration := 0 + 1; max_iterations := Some N |}
                  w1 Hllm eq_refl ltac:(simpl; lia) (or_introl eq_refl)) as [w' Hloop].
      exists w'. apply research_raises. unfold graph_invoke.
      rewrite invoke_from_S, step_START by done.
      rewrite invoke_from_S by done.
      rewrite (step_PLANNER_returns self _ _ _ _ Hp). exact Hloop. }
  exists w'. split; [done |].
  rewrite <- Hb in Hres. by apply (routes_on_raise self _ _ _ _ _ _ _ _ Hscr Hres).
Qed.

Lemma insistent_model_exhausts_limit_witness :
  ∃ w',
    @research insistent insistent_agent 25 demo_query (Some 3) tt
      = (Raise (@graph_recursion_error insistent 25), w').
Proof.
  destruct (@insistent_model_exhausts_limit insistent insistent_agent 25 ∅
              (Some "your-secret-key") demo_body
              {| rq_query := demo_query; rq_max_iterations := Some 3 |} 3 tt)
    as (w' & Hres & _).
  - intros msgs w1. eexists _, _. split; [reflexivity | discriminate].
  - vm_compute. reflexivity.
  - reflexivity.
  - lia.
  - exists w'. exact Hres.
Defined.

(** X7. A run without a bound ([max_iterations] is [None], as after a
    request with an explicit null) raises a type error as soon as the
    tools node has run, and [/research] answers 500; such a run returns
    only when the researcher's first reply asks for no tool. *)
Theorem null_bound_fails_after_tools `{External} (self : ResearchAssistant)
    (limit : nat) (environ : gmap string string) (header : option string)
    (b : RequestBody) (request : ResearchRequest) (w0 : world) :
  screen_request environ header b = inr request →
  rq_max_iterations request = None →
  (∀ i state w,
     trace self limit (rq_query request) None w0 !! i = Some (TOOLS, state, w) →
     (i < limit)%nat →
     ∃ w',
       research self limit (rq_query request) None w0 = (Raise none_bound_error, w') ∧
       conduct_research (Some self) limit environ header b w0
         = (Return (HTTPException 500 ("Research failed: " +:+ str none_bound_error)), w')) ∧
  (∀ r w',
     research self limit (rq_query request) None w0 = (Return r, w') →
     nodes_of (trace self limit (rq_query request) None w0)
       = [START; PLANNER; RESEARCHER; SYNTHESIZER; END]).
Proof.
  intros Hscr Hb. split.
  - intros i state w Hi Hlt.
    pose proof Hi as Hreach.
    apply trace_reachable, reachable_invariant in Hreach as (HN & _ & m & Hm & _).
    destruct (step_TOOLS_none self state w m Hm HN) as [w' Hs].
    assert (research self limit (rq_query request) None w0 = (Raise none_bound_error, w'))
      as Hres.
    { apply research_raises. eapply trace_from_raises; [exact Hi | exact Hlt | exact Hs]. }
    exists w'. split; [done |].
    rewrite <- Hb in Hres. by apply (routes_on_raise self _ _ _ _ _ _ _ _ Hscr Hres).
  - intros r w' Hres. apply research_inv in Hres as (final & Hrun & _).
    apply run_prefix in Hrun as (limit' & rp & w1 & -> & _ & Hrun & ->).
    rewrite !nodes_of_cons.
    destruct limit' as [|limit]; [done |].
    rewrite invoke_from_S in Hrun by done. rewrite trace_from_S by done.
    destruct (step self RESEARCHER _ w1) as [[[n2 state2]|e] w2] eqn:Hs; [| done].
    apply step_RESEARCHER_inv in Hs as (rr & _ & -> & ->).
    rewrite nodes_of_cons. destruct (tool_calls rr).
    + by rewrite (trace_from_SYNTHESIZER _ _ _ _ _ _ Hrun).
    + destruct limit as [|limit]; [done |].
      rewrite invoke_from_S in Hrun by done.
      destruct (step self TOOLS _ w2) as [[[n3 state3]|e] w3] eqn:Hs; [| done].
      by apply step_TOOLS_inv in Hs as (m & outputs & N' & _ & _ & HN' & _).
Qed.

Lemma null_bound_fails_after_tools_witness :
  screen_request ∅ (Some "your-secret-key") null_body
    = inr {| rq_query := demo_query; rq_max_iterations := None |} ∧
  ∃ w',
    @conduct_research scripted (Some scripted_agent) 25 ∅ (Some "your-secret-key")
       null_body one_tool_script
      = (Return (HTTPException 500 ("Research failed: " +:+ str none_bound_error)), w').
Proof.
  split; [vm_compute; reflexivity |].
  destruct (@null_bound_fails_after_tools scripted scripted_agent 25 ∅
              (Some "your-secret-key") null_body
              {| rq_query := demo_query; rq_max_iterations := None |} one_tool_script)
    as (Htools & _).
  - vm_compute. reflexivity.
  - reflexivity.
  - destruct (Htools 3%nat
                {| messages := [AI {| content := "";
                                      tool_calls := [ {| tc_name := "web_search";
                                                         tc_args := "recent AI";
                                                         tc_id := "call_1" |} ] |}];
                   research_query := demo_query; findings := []; iteration := 1;
                   max_iterations := None |}
                [plain_reply "REPORT"]) as (w' & _ & Hroute).
    + vm_compute. reflexivity.
    + lia.
    + exists w'. exact Hroute.
Defined.

(** ** Tools and startup *)

(** X8. [summarize_findings] of no finding is the empty string, and of
    any number of copies of one finding it is that finding, without a
    separator. *)
Theorem summarize_findings_of_copies `{External} (findings : list string) (x : string) :
  summarize_findings [] = "" ∧
  (findings ≠ [] → (∀ y, y ∈ findings → y = x) → summarize_findings findings = x).
Proof.
  unfold summarize_findings. split.
  - assert (set_list [] = []) as ->; [| done].
    apply elem_of_nil_inv. intros y Hy.
    apply (proj1 (set_list_elem [] y)) in Hy. by apply elem_of_nil in Hy.
  - intros Hne Hall.
    assert (set_list findings = [x]) as ->; [| done].
    pose proof (set_list_NoDup findings) as Hnd.
    assert (∀ y, y ∈ set_list findings → y = x) as Hall'
      by (intros y Hy; apply Hall; exact (proj1 (set_list_elem findings y) Hy)).
    assert (x ∈ set_list findings) as Hx.
    { destruct findings as [|y ys]; [done |].
      apply (proj2 (set_list_elem (y :: ys) x)). rewrite <- (Hall y) by left. left. }
    destruct (set_list findings) as [|a [|b l]].
    + by apply elem_of_nil in Hx.
    + by rewrite (Hall' a) by left.
    + apply NoDup_cons in Hnd as [Hnotin _].
      rewrite (Hall' a), (Hall' b) in Hnotin by (repeat constructor).
      exfalso. apply Hnotin. left.
Qed.

Lemma summarize_findings_of_copies_witness :
  @summarize_findings scripted ["same"; "same"; "same"] = "same".
Proof.
  destruct (@summarize_findings_of_copies scripted ["same"; "same"; "same"] "same")
    as [_ Hcopies].
  apply Hcopies; [discriminate |].
  intros y Hy. apply list_elem_of_In in Hy. simpl in Hy.
  destruct Hy as [<- | [<- | [<- | []]]]; reflexivity.
Defined.

(** X9. [ResearchAssistant(api_key)] hands the model constructor the
    given key when it is a non-empty string and then ignores the
    environment; an empty string counts as no key, and [GOOGLE_API_KEY] is
    used instead. When that is absent too the constructor gets [None]. An
    exception of the constructor is raised by the initialisation; on
    success the agent carries the three tools and the model bound to their
    names. *)
Theorem agent_key_precedence `{External} (environ : gmap string string)
    (api_key : option string) :
  (∀ k, k ≠ "" → ResearchAssistant_init environ (Some k) = ResearchAssistant_init ∅ (Some k)) ∧
  ResearchAssistant_init environ (Some "") = ResearchAssistant_init environ None ∧
  (environ !! "GOOGLE_API_KEY" = None →
   ∀ e, ChatGoogleGenerativeAI "gemini-pro" None = Raise e →
        ResearchAssistant_init environ None = Raise e ∧
        ResearchAssistant_init environ (Some "") = Raise e) ∧
  (∀ e, ChatGoogleGenerativeAI "gemini-pro" (py_or api_key (environ !! "GOOGLE_API_KEY"))
        = Raise e →
        ResearchAssistant_init environ api_key = Raise e) ∧
  (∀ agent, ResearchAssistant_init environ api_key = Return agent →
     name <$> tools agent = ["web_search"; "fetch_webpage"; "summarize_findings"] ∧
     llm_with_tools agent
       = bind_tools (llm agent) ["web_search"; "fetch_webpage"; "summarize_findings"]).
Proof.
  unfold ResearchAssistant_init, getenv. split_and!.
  - intros k Hk. simpl. destruct (String.eqb_spec k ""); done.
  - done.
  - intros -> e He. simpl. by rewrite He.
  - by intros e ->.
  - intros agent.
    destruct (ChatGoogleGenerativeAI _ _) as [l|e]; [| done]. by intros [= <-].
Qed.

Lemma agent_key_precedence_witness :
  @ResearchAssistant_init scripted {["GOOGLE_API_KEY" := "from-env"]} (Some "given")
    = @ResearchAssistant_init scripted ∅ (Some "given").
Proof.
  destruct (@agent_key_precedence scripted {["GOOGLE_API_KEY" := "from-env"]} None)
    as (Hgiven & _).
  apply Hgiven. discriminate.
Defined.

(** ** The key and the screening of requests *)

(** X10. With [API_KEY] set to [k], [verify_api_key] lets exactly the
    header value [k] through and raises the 401 for every other value; the
    fallback ["your-secret-key"] is then refused unless [k] is that
    string. *)
Theorem configured_key_is_the_only_key (environ : gmap string string)
    (k x_api_key : string) :
  environ !! "API_KEY" = Some k →
  (verify_api_key environ x_api_key = inr x_api_key ↔ x_api_key = k) ∧
  (x_api_key ≠ k →
   verify_api_key environ x_api_key = inl (HTTPException 401 "Invalid API key")) ∧
  (k ≠ "your-secret-key" →
   verify_api_key environ "your-secret-key" = inl (HTTPException 401 "Invalid API key")).
Proof.
  intros Hk. unfold verify_api_key, getenv_default. rewrite Hk. simpl. split_and!.
  - case_bool_decide; split; done.
  - intros Hne. by case_bool_decide.
  - intros Hne. by case_bool_decide.
Qed.

Lemma configured_key_is_the_only_key_witness :
  ({["API_KEY" := "s3cret"]} : gmap string string) !! "API_KEY" = Some "s3cret" ∧
  verify_api_key {["API_KEY" := "s3cret"]} "your-secret-key"
    = inl (HTTPException 401 "Invalid API key").
Proof.
  assert (({["API_KEY" := "s3cret"]} : gmap string string) !! "API_KEY" = Some "s3cret")
    as Hk by reflexivity.
  split; [exact Hk |].
  destruct (configured_key_is_the_only_key {["API_KEY" := "s3cret"]} "s3cret"
              "your-secret-key" Hk) as (_ & _ & Hfallback).
  apply Hfallback. discriminate.
Defined.

(** A request that is screened out is answered as such by both routes. *)
Lemma only_screened_requests_run_helper `{External}
    (research_agent : option ResearchAssistant) (limit : nat)
    (environ : gmap string string) (header : option string) (b : RequestBody) :
  ∀ answer, screen_request environ header b = inl answer →
    (answer = RequestValidationError ∨ answer = HTTPException 401 "Invalid API key") ∧
    ∀ w, conduct_research research_agent limit environ header b w = (Return answer, w) ∧
         conduct_research_streaming research_agent limit environ header b w
           = (Return answer, w).
Proof.
  intros answer Hans.
  assert (screen_request environ header b = inl answer) as Hscr by exact Hans.
  unfold screen_request, verify_api_key in Hans. split.
  - destruct header as [k|]; [| injection Hans as <-; by left].
    case_bool_decide; [injection Hans as <-; by right |].
    destruct (ResearchRequest_validate b); [done |]. injection Hans as <-. by left.
  - intros w. unfold conduct_research, conduct_research_streaming. by rewrite Hscr.
Qed.

(** X11. A request reaches an endpoint function only with a header that
    equals the expected key and a body that [ResearchRequest] accepts.
    Every other request is answered by both routes with the 422 of a
    missing header or an invalid body, or with the 401 of a wrong key,
    and the world is left as it was. *)
Theorem only_screened_requests_run `{External}
    (research_agent : option ResearchAssistant) (limit : nat)
    (environ : gmap string string) (header : option string) (b : RequestBody) :
  (∀ request,
     screen_request environ header b = inr request ↔
     header = Some (getenv_default environ "API_KEY" "your-secret-key") ∧
     ResearchRequest_validate b = Some request) ∧
  (header = None →
   screen_request environ header b = inl RequestValidationError) ∧
  (∀ k, header = Some k → k ≠ getenv_default environ "API_KEY" "your-secret-key" →
   screen_request environ header b = inl (HTTPException 401 "Invalid API key")) ∧
  (∀ answer, screen_request environ header b = inl answer →
     (answer = RequestValidationError ∨ answer = HTTPException 401 "Invalid API key") ∧
     ∀ w, conduct_research research_agent limit environ header b w = (Return answer, w) ∧
          conduct_research_streaming research_agent limit environ header b w
            = (Return answer, w)).
Proof.
  unfold screen_request, verify_api_key. split_and!.
  - intros request. destruct header as [k|]; [| split; [done | by intros [? _]]].
    case_bool_decide as Hk.
    + split; [done |]. intros [[= ->] _]. done.
    + subst k.
      destruct (ResearchRequest_validate b) as [request'|]; split.
      * by intros [= ->].
      * by intros [_ [= ->]].
      * done.
      * by intros [_ ?].
  - by intros ->.
  - intros k -> Hk. by case_bool_decide.
  - fold (verify_api_key environ). apply only_screened_requests_run_helper.
Qed.

Lemma only_screened_requests_run_witness :
  @conduct_research scripted (Some scripted_agent) 25 ∅ (Some "guess") demo_body tool_script
  = (Return (HTTPException 401 "Invalid API key"), tool_script).
Proof.
  destruct (@only_screened_requests_run scripted (Some scripted_agent) 25 ∅
              (Some "guess") demo_body) as (_ & _ & Hwrong & Hleft).
  assert (screen_request ∅ (Some "guess") demo_body
          = inl (HTTPException 401 "Invalid API key")) as Hscr.
  { apply (Hwrong "guess"); [reflexivity | discriminate]. }
  destruct (Hleft _ Hscr) as [_ Hroutes]. exact (proj1 (Hroutes tool_script)).
Defined.

(** ** The answers of the two routes *)

(** X12. Before the agent is initialised, [/research] answers a screened
    request with 503 and does nothing else, while [/research/stream]
    answers it with status 200 and two events, the start notice and the
    error of the attribute access on [None]; it never answers 503. *)
Theorem uninitialised_agent `{External} (limit : nat) (environ : gmap string string)
    (header : option string) (b : RequestBody) (request : ResearchRequest) (w : world) :
  screen_request environ header b = inr request →
  conduct_research None limit environ header b w
    = (Return (HTTPException 503 "Agent not initialized"), w) ∧
  conduct_research_streaming None limit environ header b w
    = (Return (StreamingResponse 200 "text/event-stream"
                 [ sse ("Starting research for: " +:+ rq_query request);
                   sse "Error: 'NoneType' object has no attribute 'research'" ]), w).
Proof.
  intros Hscr. unfold conduct_research, conduct_research_streaming. rewrite Hscr. done.
Qed.

Lemma uninitialised_agent_witness :
  @conduct_research scripted None 25 ∅ (Some "your-secret-key") demo_body tool_script
    = (Return (HTTPException 503 "Agent not initialized"), tool_script).
Proof.
  apply (@uninitialised_agent scripted 25 ∅ (Some "your-secret-key") demo_body
           {| rq_query := demo_query; rq_max_iterations := Some 3 |} tool_script).
  vm_compute. reflexivity.
Defined.

(** X13. Neither route lets an exception escape: for every request,
    agent and behaviour of the collaborators, [/research] returns an
    answer with status 200, 401, 422, 500 or 503, and [/research/stream]
    one with status 200, 401 or 422. *)
Theorem routes_always_answer `{External} (research_agent : option ResearchAssistant)
    (limit : nat) (environ : gmap string string) (header : option string)
    (b : RequestBody) (w : world) :
  (∃ answer w',
     conduct_research research_agent limit environ header b w = (Return answer, w') ∧
     status_of answer ∈ [200; 401; 422; 500; 503]) ∧
  (∃ answer w',
     conduct_research_streaming research_agent limit environ header b w
       = (Return answer, w') ∧
     status_of answer ∈ [200; 401; 422]).
Proof.
  pose proof (only_screened_requests_run_helper research_agent limit environ header b) as Hleft.
  destruct (screen_request environ header b) as [answer|request] eqn:Hscr.
  - destruct (Hleft answer eq_refl) as [Hans Hroutes].
    destruct (Hroutes w) as [Hsync Hstream].
    split; exists answer, w; (split; [done |]); destruct Hans as [-> | ->]; simpl;
      apply list_elem_of_In; simpl; tauto.
  - clear Hleft. split.
    + unfold conduct_research. rewrite Hscr. unfold conduct_research_body.
      destruct research_agent as [agent|].
      * unfold try_except.
        destruct (research agent limit (rq_query request) (rq_max_iterations request) w)
          as [[r|e] w'] eqn:Hres.
        -- erewrite bind_Return by exact Hres.
           eexists _, _. split; [reflexivity |]. apply list_elem_of_In; simpl; tauto.
        -- erewrite bind_Raise by exact Hres.
           eexists _, _. split; [reflexivity |]. apply list_elem_of_In; simpl; tauto.
      * eexists _, _. split; [reflexivity |]. apply list_elem_of_In; simpl; tauto.
    + unfold conduct_research_streaming. rewrite Hscr.
      unfold conduct_research_streaming_body, generate, try_except.
      destruct (agent_research research_agent limit request w) as [[r|e] w'] eqn:Hres.
      * erewrite bind_Return; [| erewrite bind_Return by exact Hres; reflexivity].
        eexists _, _. split; [reflexivity |]. apply list_elem_of_In; simpl; tauto.
      * erewrite bind_Return; [| erewrite bind_Raise by exact Hres; reflexivity].
        eexists _, _. split; [reflexivity |]. apply list_elem_of_In; simpl; tauto.
Qed.

Lemma research_returns_one `{External} (self : ResearchAssistant) (limit : nat)
    (query : string) (bound : option Z) (w : world) (r : ResearchResult) (w' : world) :
  research self limit query bound w = (Return r, w') →
  r = {| res_query := query; report := report r; iterations := 1; findings_count := 1 |}.
Proof.
  intros Hres. apply research_inv_report in Hres as (final & m & Hrun & _ & ->).
  pose proof (invoke_from_counts self _ _ _ _ _ _ Hrun) as (_ & Hf & Hit).
  fold (trace self limit query bound w) in Hf, Hit.
  rewrite (planner_once self _ _ _ _ _ _ Hrun) in Hit.
  unfold trace in Hf. rewrite (synthesizer_once self _ _ _ _ _ _ Hrun) in Hf by done.
  simpl in Hf, Hit |- *. by rewrite Hf, Hit.
Qed.

(** X14. Every answer of [/research] that carries a [ResearchResponse]
    has status 200, [success = true], the query of the request,
    [iterations = 1] and [findings_count = 1], and its report is the report
    of the run of [research] on the validated request. *)
Theorem ok_answer_content `{External} (research_agent : option ResearchAssistant)
    (limit : nat) (environ : gmap string string) (header : option string)
    (b : RequestBody) (w : world) (c : Z) (body : ResearchResponse) (w' : world) :
  conduct_research research_agent limit environ header b w
    = (Return (JSONResponse c body), w') →
  c = 200 ∧
  ∃ self request,
    research_agent = Some self ∧
    screen_request environ header b = inr request ∧
    body = {| rs_success := true; rs_query := rq_query request;
              rs_report := rs_report body; rs_iterations := 1;
              rs_findings_count := 1 |} ∧
    research self limit (rq_query request) (rq_max_iterations request) w
      = (Return {| res_query := rq_query request; report := rs_report body;
                   iterations := 1; findings_count := 1 |}, w').
Proof.
  intros Hans.
  pose proof (only_screened_requests_run_helper research_agent limit environ header b)
    as Hleft.
  destruct (screen_request environ header b) as [answer|request] eqn:Hscr.
  { destruct (Hleft answer eq_refl) as [Hkind Hroutes].
    destruct (Hroutes w) as [Hsync _]. rewrite Hsync in Hans.
    destruct Hkind as [-> | ->]; done. }
  unfold conduct_research in Hans. rewrite Hscr in Hans.
  unfold conduct_research_body in Hans.
  destruct research_agent as [self|]; [| done].
  unfold try_except in Hans.
  destruct (research self limit (rq_query request) (rq_max_iterations request) w)
    as [[r|e] w1] eqn:Hres.
  - erewrite bind_Return in Hans by exact Hres. injection Hans as <- <- <-.
    split; [done |]. exists self, request.
    pose proof (research_returns_one self _ _ _ _ _ _ Hres) as Hr.
    split_and!; [done | done | |].
    + rewrite Hr. reflexivity.
    + simpl. by rewrite <- Hr.
  - erewrite bind_Raise in Hans by exact Hres. done.
Qed.

Lemma ok_answer_content_witness :
  ∃ body w',
    @conduct_research scripted (Some scripted_agent) 25 ∅ (Some "your-secret-key")
       demo_body tool_script = (Return (JSONResponse 200 body), w') ∧
    rs_iterations body = 1 ∧ rs_findings_count body = 1.
Proof.
  eexists _, _.
  assert (∀ A (x y : A) (P : Prop), x = y → (x = y → P) → x = y ∧ P) as Hcut by tauto.
  apply Hcut; [vm_compute; reflexivity |]. intros Hans.
  destruct (@ok_answer_content scripted (Some scripted_agent) 25 ∅ (Some "your-secret-key")
              demo_body tool_script _ _ _ Hans) as (_ & self & request & _ & _ & Hbody & _).
  rewrite Hbody. split; reflexivity.
Defined.

(** ** The request models compared *)

(** X15. [AgentInput] is the stricter model: a body it accepts is
    accepted by [ResearchRequest] with the same values, and a body that
    only [ResearchRequest] accepts has a query of more than 1000
    characters. [ResearchTaskRequest] accepts the same bodies as
    [AgentInput], with the same values. *)
Theorem agent_input_is_stricter (b : RequestBody) :
  (∀ a, AgentInput_validate b = Some a →
        ResearchRequest_validate b
        = Some {| rq_query := in_query a; rq_max_iterations := in_max_iterations a |}) ∧
  (∀ r, ResearchRequest_validate b = Some r →
        if decide (String.length (rq_query r) ≤ 1000)%nat
        then AgentInput_validate b
             = Some {| in_query := rq_query r; in_max_iterations := rq_max_iterations r |}
        else AgentInput_validate b = None) ∧
  ResearchTaskRequest_validate b
  = (λ a, {| task_query := in_query a; task_max_iterations := in_max_iterations a |})
    <$> AgentInput_validate b.
Proof.
  unfold AgentInput_validate, ResearchRequest_validate, ResearchTaskRequest_validate,
    str_field, from_option.
  destruct (body_query b) as [q|]; [| done]. cbv beta.
  destruct (optional_int_field 3 1 10 (body_max_iterations b)) as [n|];
    destruct (Nat.leb_spec 5 (String.length q)) as [Hlo|Hlo],
             (Nat.leb_spec (String.length q) 1000) as [Hhi|Hhi];
    simpl; (split_and!; [| | done]); intros x Hx; try discriminate Hx;
    injection Hx as <-; simpl; try done; case_decide; done || lia.
Qed.

(** X16. What [ResearchRequest] hands to the endpoint: the query of the
    body, unchanged and of at least 5 characters, and as bound 3 when the
    body has none, [None] when the body has a null, and otherwise the
    integer that the body's value is or is read as (the string ["3"] and
    the number [3.0] give 3), which is between 1 and 10. *)
Theorem validated_request_values (b : RequestBody) (request : ResearchRequest) :
  ResearchRequest_validate b = Some request →
  body_query b = Some (rq_query request) ∧
  (5 ≤ String.length (rq_query request))%nat ∧
  match body_max_iterations b with
  | Omitted => rq_max_iterations request = Some 3
  | Null => rq_max_iterations request = None
  | Int z => rq_max_iterations request = Some z ∧ 1 ≤ z ≤ 10
  | Lax reading =>
      ∃ z, reading = Some z ∧ rq_max_iterations request = Some z ∧ 1 ≤ z ≤ 10
  end.
Proof.
  unfold ResearchRequest_validate, str_field, optional_int_field, from_option.
  destruct (body_query b) as [q|]; [| done]. cbv beta.
  destruct (Nat.leb_spec 5 (String.length q)); simpl; [| done].
  destruct (body_max_iterations b) as [| |z|[z|]]; simpl.
  - by intros [= <-].
  - by intros [= <-].
  - destruct (Z.leb_spec 1 z), (Z.leb_spec z 10); simpl; try done.
    intros [= <-]. simpl. split_and!; done || lia.
  - destruct (Z.leb_spec 1 z), (Z.leb_spec z 10); simpl; try done.
    intros [= <-]. simpl. split_and!; [done | done |]. exists z. split_and!; done || lia.
  - done.
Qed.

Lemma validated_request_values_witness :
  ResearchRequest_validate lax_body
    = Some {| rq_query := demo_query; rq_max_iterations := Some 3 |} ∧
  (5 ≤ String.length demo_query)%nat ∧
  ∃ z, Some 3 = Some z ∧ Some 3 = Some z ∧ 1 ≤ z ≤ 10.
Proof.
  assert (ResearchRequest_validate lax_body
          = Some {| rq_query := demo_query; rq_max_iterations := Some 3 |}) as Hv
    by (vm_compute; reflexivity).
  split; [exact Hv |].
  destruct (validated_request_values _ _ Hv) as (_ & Hlen & Hbound).
  split; [exact Hlen | exact Hbound].
Defined.

Lemma agent_input_is_stricter_witness :
  AgentInput_validate demo_body
    = Some {| in_query := demo_query; in_max_iterations := Some 3 |} ∧
  ResearchRequest_validate demo_body
    = Some {| rq_query := demo_query; rq_max_iterations := Some 3 |}.
Proof.
  assert (AgentInput_validate demo_body
          = Some {| in_query := demo_query; in_max_iterations := Some 3 |}) as Ha
    by (vm_compute; reflexivity).
  split; [exact Ha |].
  destruct (agent_input_is_stricter demo_body) as (Hstrict & _).
  exact (Hstrict _ Ha).
Defined.

